(** * MacroTrack: nutrition aggregation, goal progress and metabolic formulas

    Shallow embedding of the computational core of the MacroTrack code:
    - [src/macrotrack_database_models.ts]: the User pre-save hook that
      derives [macroPercentages], [generateBMR], [generateTDEE], and the
      MealEntry pre-save hook that recomputes meal and daily totals;
    - [src/macrotrack_api_controllers.ts]: the meal submission handler,
      [calculateGoalProgress], the food details handler and
      [getMockNutritionData];
    - [src/macrotrack-complete.tsx]: [calculateBMR] and [calculateTDEE].

    JavaScript numbers are modelled as exact rationals [Q]; [Math.round]
    is [floor (x + 1/2)] (nearest integer, ties toward +infinity).  Where
    a claim is about NaN or infinities the number is modelled by [jsnum]. *)

From Stdlib Require Import ZArith QArith Qround Qminmax Lqa List String Bool Lia.
Import ListNotations.

Open Scope Q_scope.

(** ** JavaScript numeric helpers *)

(** [Math.round(x)]. *)
Definition math_round (x : Q) : Z := Qfloor (x + (1 # 2)).

(** [x || 0] on a number: [0] is falsy and yields the right operand. *)
Definition js_or0 (x : Q) : Q := if Qeq_bool x 0 then 0 else x.

(** ** Data model (MealEntry.ts) *)

(** [INutrition]; the optional fields carry the schema default [0]
    once the document is cast by the NutritionSchema. *)
Record INutrition := mkNutrition {
  calories : Q;
  protein : Q;
  carbohydrates : Q;
  fat : Q;
  fiber : Q;
  sugar : Q;
  sodium : Q;
  potassium : Q;
  calcium : Q;
  iron : Q
}.

(** [MealTotalsSchema]: only five fields. *)
Record MealTotals := mkMealTotals {
  mt_calories : Q;
  mt_protein : Q;
  mt_carbohydrates : Q;
  mt_fat : Q;
  mt_fiber : Q
}.

Record IFood := mkFood {
  spoonacularId : option Z;
  customFoodId : option string;
  name : string;
  amount : Q;
  unit : string;
  nutritionPer100g : INutrition;
  actualNutrition : INutrition;
  addedAt : Z;
  isCustomFood : bool
}.

Inductive MealType := breakfast | lunch | dinner | snack.

Definition MealType_eqb (a b : MealType) : bool :=
  match a, b with
  | breakfast, breakfast | lunch, lunch | dinner, dinner | snack, snack => true
  | _, _ => false
  end.

Record IMeal := mkMeal {
  mealType : MealType;
  mealName : option string;
  foods : list IFood;
  mealTotals : MealTotals
}.

Record IGoalProgress := mkGoalProgress {
  target : Q;
  actual : Q;
  percentage : Z;
  remaining : Q
}.

Record GoalProgressSet := mkGoalProgressSet {
  gp_calories : IGoalProgress;
  gp_protein : IGoalProgress;
  gp_carbohydrates : IGoalProgress;
  gp_fat : IGoalProgress
}.

Record IMealEntry := mkMealEntry {
  userId : string;
  date : Z;
  meals : list IMeal;
  dailyTotals : INutrition;
  goalProgress : GoalProgressSet
}.

(** ** MealEntrySchema.pre('save') *)

Definition zero_mealTotals : MealTotals := mkMealTotals 0 0 0 0 0.

(** The reducer of [meal.foods.reduce(...)]. *)
Definition add_food (totals : MealTotals) (food : IFood) : MealTotals :=
  let a := actualNutrition food in
  {| mt_calories := mt_calories totals + calories a;
     mt_protein := mt_protein totals + protein a;
     mt_carbohydrates := mt_carbohydrates totals + carbohydrates a;
     mt_fat := mt_fat totals + fat a;
     mt_fiber := mt_fiber totals + fiber a |}.

Definition calculatedTotals (fs : list IFood) : MealTotals :=
  fold_left add_food fs zero_mealTotals.

(** [meal.mealTotals = calculatedTotals], done for each meal in place. *)
Definition refresh_meal (m : IMeal) : IMeal :=
  {| mealType := mealType m; mealName := mealName m; foods := foods m;
     mealTotals := calculatedTotals (foods m) |}.

Definition zero_nutrition : INutrition := mkNutrition 0 0 0 0 0 0 0 0 0 0.

(** The reducer of [this.meals.reduce(...)]: the extended fields are
    taken from the accumulator only. *)
Definition add_meal (totals : INutrition) (meal : IMeal) : INutrition :=
  {| calories := calories totals + mt_calories (mealTotals meal);
     protein := protein totals + mt_protein (mealTotals meal);
     carbohydrates := carbohydrates totals + mt_carbohydrates (mealTotals meal);
     fat := fat totals + mt_fat (mealTotals meal);
     fiber := fiber totals + mt_fiber (mealTotals meal);
     sugar := js_or0 (sugar totals);
     sodium := js_or0 (sodium totals);
     potassium := js_or0 (potassium totals);
     calcium := js_or0 (calcium totals);
     iron := js_or0 (iron totals) |}.

Definition compute_dailyTotals (ms : list IMeal) : INutrition :=
  fold_left add_meal ms zero_nutrition.

Definition pre_save (e : IMealEntry) : IMealEntry :=
  let ms := map refresh_meal (meals e) in
  {| userId := userId e; date := date e; meals := ms;
     dailyTotals := compute_dailyTotals ms;
     goalProgress := goalProgress e |}.

(** ** calculateGoalProgress (pages/api/meals/index.ts) *)

Definition calculateGoalProgress (actual_ target_ : Q) : IGoalProgress :=
  {| target := target_;
     actual := inject_Z (math_round (actual_ * 100)) / 100;
     percentage := if negb (Qle_bool target_ 0)
                   then math_round ((actual_ / target_) * 100) else 0%Z;
     remaining := Qmax 0 (target_ - actual_) |}.

(** ** User goals (User.ts) *)

Record MacroTargets := mkMacroTargets {
  mtg_protein : Q;
  mtg_carbohydrates : Q;
  mtg_fat : Q;
  mtg_fiber : Q
}.

Record MacroPercentages := mkMacroPercentages {
  mp_protein : Z;
  mp_carbohydrates : Z;
  mp_fat : Z
}.

Record Goals := mkGoals {
  dailyCalories : Q;
  macroTargets : MacroTargets;
  macroPercentages : option MacroPercentages
}.

Inductive Gender := male | female | other.

Inductive WeightUnit := kg | lbs.
Inductive HeightUnit := cm | inches.

Record Profile := mkProfile {
  birthYear : Z;            (** [new Date(dateOfBirth).getFullYear()] *)
  gender : Gender;
  heightValue : Q;
  heightUnit : HeightUnit;
  weightValue : Q;
  weightUnit : WeightUnit;
  activityLevel : string
}.

Record IUser := mkUser {
  profile : Profile;
  goals : Goals
}.

(** The second [UserSchema.pre('save')] hook; the two flags are
    [this.isModified('goals.macroTargets')] and
    [this.isModified('goals.dailyCalories')]. *)
Definition user_pre_save (macroTargets_modified dailyCalories_modified : bool)
    (u : IUser) : IUser :=
  if macroTargets_modified || dailyCalories_modified then
    let t := macroTargets (goals u) in
    let totalCalories := dailyCalories (goals u) in
    {| profile := profile u;
       goals := {| dailyCalories := dailyCalories (goals u);
                   macroTargets := t;
                   macroPercentages := Some
                     {| mp_protein := math_round ((mtg_protein t * 4 / totalCalories) * 100);
                        mp_carbohydrates := math_round ((mtg_carbohydrates t * 4 / totalCalories) * 100);
                        mp_fat := math_round ((mtg_fat t * 9 / totalCalories) * 100) |} |} |}
  else u.

(** ** generateBMR / calculateBMR *)

(** [UserSchema.methods.generateBMR]; [currentYear] is
    [new Date().getFullYear()]. *)
Definition generateBMR (currentYear : Z) (p : Profile) : Z :=
  let age := inject_Z (currentYear - birthYear p) in
  let weightKg := match weightUnit p with
                  | kg => weightValue p
                  | lbs => weightValue p * (453592 # 1000000) end in
  let heightCm := match heightUnit p with
                  | cm => heightValue p
                  | inches => heightValue p * (254 # 100) end in
  let bmr := match gender p with
             | male => 10 * weightKg + (625 # 100) * heightCm - 5 * age + 5
             | _ => 10 * weightKg + (625 # 100) * heightCm - 5 * age - 161 end in
  math_round bmr.

(** [calculateBMR] of macrotrack-complete.tsx (no rounding). *)
Definition calculateBMR (weight height age : Q) (g : Gender) : Q :=
  match g with
  | male => 10 * weight + (625 # 100) * height - 5 * age + 5
  | _ => 10 * weight + (625 # 100) * height - 5 * age - 161
  end.

(** ** JavaScript values for property lookups and [parseFloat] results *)

(** A JavaScript number: finite (as a rational), NaN or an infinity. *)
Inductive jsnum := JNum (q : Q) | JNaN | JPosInf | JNegInf.

(** The value of [obj[key]] on an object literal: an own number
    property, a property inherited from [Object.prototype] (a function,
    or the prototype object for [__proto__]), or [undefined]. *)
Inductive jsval := VNumber (q : Q) | VInherited | VUndefined.

(** Property names every object literal inherits from [Object.prototype]. *)
Definition object_prototype_keys : list string :=
  ["constructor"; "hasOwnProperty"; "isPrototypeOf"; "propertyIsEnumerable";
   "toLocaleString"; "toString"; "valueOf"; "__proto__";
   "__defineGetter__"; "__defineSetter__"; "__lookupGetter__";
   "__lookupSetter__"]%string.

(** [const multipliers = { sedentary: 1.2, light: 1.375, moderate: 1.55,
    active: 1.725, very_active: 1.9 }] and [multipliers[level]]. *)
Definition multipliers (level : string) : jsval :=
  if String.eqb level "sedentary" then VNumber (12 # 10)
  else if String.eqb level "light" then VNumber (1375 # 1000)
  else if String.eqb level "moderate" then VNumber (155 # 100)
  else if String.eqb level "active" then VNumber (1725 # 1000)
  else if String.eqb level "very_active" then VNumber (19 # 10)
  else if existsb (String.eqb level) object_prototype_keys then VInherited
  else VUndefined.

(** [v || 1.2]: [undefined] and [0] are falsy, functions and objects
    are truthy. *)
Definition or_sedentary (v : jsval) : jsval :=
  match v with
  | VUndefined => VNumber (12 # 10)
  | VNumber q => if Qeq_bool q 0 then VNumber (12 # 10) else VNumber q
  | VInherited => VInherited
  end.

(** [Math.round(bmr * v)]: a function or an object converts to NaN. *)
Definition round_times (bmr : Q) (v : jsval) : jsnum :=
  match v with
  | VNumber m => JNum (inject_Z (math_round (bmr * m)))
  | _ => JNaN
  end.

(** [calculateTDEE] of macrotrack-complete.tsx. *)
Definition calculateTDEE (bmr : Q) (level : string) : jsnum :=
  round_times bmr (or_sedentary (multipliers level)).

(** [UserSchema.methods.generateTDEE] (no fallback). *)
Definition generateTDEE (currentYear : Z) (p : Profile) : jsnum :=
  round_times (inject_Z (generateBMR currentYear p)) (multipliers (activityLevel p)).

(** ** Food details handler (pages/api/foods/[id].ts) *)

Definition js_isNaN (x : jsnum) : bool :=
  match x with JNaN => true | _ => false end.

(** [x <= 0]; every comparison with NaN is false. *)
Definition js_le0 (x : jsnum) : bool :=
  match x with
  | JNum q => Qle_bool q 0
  | JNegInf => true
  | JNaN | JPosInf => false
  end.

Inductive FoodDetailsResponse :=
  | FD_MethodNotAllowed
  | FD_NotAuthenticated
  | FD_MissingId
  | FD_InvalidId
  | FD_InvalidAmount
  | FD_Ok (foodId : jsnum) (amountNum : jsnum).

(** The handler up to the call of [getFoodNutrition]; [foodId] is
    [parseInt(id)] and [amountNum] is [parseFloat(amount)] (with the
    default ['100']), as JavaScript computes them. [FD_Ok] records the
    arguments passed on to [spoonacularService.getFoodNutrition]. *)
Definition food_details_handler (is_get authenticated id_present : bool)
    (foodId amountNum : jsnum) : FoodDetailsResponse :=
  if negb is_get then FD_MethodNotAllowed
  else if negb authenticated then FD_NotAuthenticated
  else if negb id_present then FD_MissingId
  else if js_isNaN foodId then FD_InvalidId
  else if js_isNaN amountNum || js_le0 amountNum then FD_InvalidAmount
  else FD_Ok foodId amountNum.

(** ** getMockNutritionData (spoonacularService.ts) *)

Record SpoonacularNutrition := mkSpNutrition {
  sp_calories : Q;
  sp_protein : Q;
  sp_carbohydrates : Q;
  sp_fat : Q;
  sp_fiber : Q;
  sp_sugar : Q;
  sp_sodium : Q
}.

(** [SpoonacularFood] without its display strings [name] and [image]. *)
Record SpoonacularFood := mkSpFood {
  sp_id : Z;
  sp_nutrition : SpoonacularNutrition
}.

Definition mockNutrition (id : Z) : option SpoonacularNutrition :=
  match id with
  | 1%Z => Some (mkSpNutrition 165 31 0 (36 # 10) 0 0 74)
  | 2%Z => Some (mkSpNutrition 123 (26 # 10) 23 (9 # 10) (18 # 10) (4 # 10) 5)
  | 3%Z => Some (mkSpNutrition 34 (28 # 10) 7 (4 # 10) (26 # 10) (15 # 10) 33)
  | 4%Z => Some (mkSpNutrition 208 25 0 12 0 0 67)
  | 5%Z => Some (mkSpNutrition 59 10 (36 # 10) (4 # 10) 0 (32 # 10) 36)
  | 6%Z => Some (mkSpNutrition 68 (24 # 10) 12 (14 # 10) (17 # 10) (8 # 10) 49)
  | 7%Z => Some (mkSpNutrition 86 (16 # 10) 20 (1 # 10) 3 (42 # 10) 54)
  | 8%Z => Some (mkSpNutrition 23 (29 # 10) (36 # 10) (4 # 10) (22 # 10) (4 # 10) 79)
  | 9%Z => Some (mkSpNutrition 579 21 22 50 12 (43 # 10) 1)
  | 10%Z => Some (mkSpNutrition 89 (11 # 10) 23 (3 # 10) (26 # 10) 12 1)
  | _ => None
  end.

(** [Math.round(x * 10) / 10]. *)
Definition round1 (x : Q) : Q := inject_Z (math_round (x * 10)) / 10.

(** [mockNutrition[id] || mockNutrition[1]]. *)
Definition baseNutrition_of (id : Z) : SpoonacularNutrition :=
  match mockNutrition id with
  | Some n => n
  | None => mkSpNutrition 165 31 0 (36 # 10) 0 0 74
  end.

Definition getMockNutritionData (id : Z) (amount_ : Q) (unit_ : string)
    : SpoonacularFood :=
  let baseNutrition := baseNutrition_of id in
  let multiplier := amount_ / 100 in
  {| sp_id := id;
     sp_nutrition :=
       {| sp_calories := inject_Z (math_round (sp_calories baseNutrition * multiplier));
          sp_protein := round1 (sp_protein baseNutrition * multiplier);
          sp_carbohydrates := round1 (sp_carbohydrates baseNutrition * multiplier);
          sp_fat := round1 (sp_fat baseNutrition * multiplier);
          sp_fiber := round1 (sp_fiber baseNutrition * multiplier);
          sp_sugar := round1 (js_or0 (sp_sugar baseNutrition) * multiplier);
          sp_sodium := round1 (js_or0 (sp_sodium baseNutrition) * multiplier) |} |}.

(** ** Meal submission handler (pages/api/meals/index.ts) *)

(** The nutrition object of [mealSchema]: zod keeps these five keys. *)
Record NutritionReq := mkNutritionReq {
  rq_calories : Q;
  rq_protein : Q;
  rq_carbohydrates : Q;
  rq_fat : Q;
  rq_fiber : Q
}.

Record FoodReq := mkFoodReq {
  rq_spoonacularId : option Z;
  rq_customFoodId : option string;
  rq_name : string;
  rq_amount : Q;
  rq_unit : string;
  rq_nutritionPer100g : NutritionReq;
  rq_actualNutrition : NutritionReq;
  rq_isCustomFood : option bool
}.

Record MealReq := mkMealReq {
  rq_date : Z;
  rq_mealType : MealType;
  rq_mealName : option string;
  rq_foods : list FoodReq
}.

Definition nutritionReq_valid (n : NutritionReq) : bool :=
  Qle_bool 0 (rq_calories n) && Qle_bool 0 (rq_protein n)
  && Qle_bool 0 (rq_carbohydrates n) && Qle_bool 0 (rq_fat n)
  && Qle_bool 0 (rq_fiber n).

(** [mealSchema.parse]: [amount >= 0.1] and non-negative nutrients. *)
Definition mealReq_valid (r : MealReq) : bool :=
  forallb (fun f => Qle_bool (1 # 10) (rq_amount f)
                    && nutritionReq_valid (rq_nutritionPer100g f)
                    && nutritionReq_valid (rq_actualNutrition f)) (rq_foods r).

(** Casting a request nutrition object with NutritionSchema: the
    absent fields take their default [0]. *)
Definition cast_nutrition (n : NutritionReq) : INutrition :=
  mkNutrition (rq_calories n) (rq_protein n) (rq_carbohydrates n) (rq_fat n)
    (rq_fiber n) 0 0 0 0 0.

(** [{ ...food, addedAt: new Date(), isCustomFood: food.isCustomFood || false }]. *)
Definition food_of_req (now : Z) (f : FoodReq) : IFood :=
  {| spoonacularId := rq_spoonacularId f;
     customFoodId := rq_customFoodId f;
     name := rq_name f;
     amount := rq_amount f;
     unit := rq_unit f;
     nutritionPer100g := cast_nutrition (rq_nutritionPer100g f);
     actualNutrition := cast_nutrition (rq_actualNutrition f);
     addedAt := now;
     isCustomFood := match rq_isCustomFood f with Some b => b | None => false end |}.

Definition newMeal (now : Z) (r : MealReq) : IMeal :=
  {| mealType := rq_mealType r;
     mealName := rq_mealName r;
     foods := map (food_of_req now) (rq_foods r);
     mealTotals := zero_mealTotals |}.

(** [meals.findIndex(meal => meal.mealType === t)], [None] for [-1]. *)
Fixpoint findIndex (t : MealType) (ms : list IMeal) : option nat :=
  match ms with
  | [] => None
  | m :: ms' =>
      if MealType_eqb (mealType m) t then Some O
      else option_map S (findIndex t ms')
  end.

(** [ms[i] = x] for an index inside the array. *)
Fixpoint replace_at {A} (i : nat) (x : A) (l : list A) : list A :=
  match l, i with
  | [], _ => []
  | _ :: l', O => x :: l'
  | y :: l', S i' => y :: replace_at i' x l'
  end.

Definition goalProgress_of (totals : INutrition) (g : Goals) : GoalProgressSet :=
  {| gp_calories := calculateGoalProgress (calories totals) (dailyCalories g);
     gp_protein := calculateGoalProgress (protein totals) (mtg_protein (macroTargets g));
     gp_carbohydrates := calculateGoalProgress (carbohydrates totals) (mtg_carbohydrates (macroTargets g));
     gp_fat := calculateGoalProgress (fat totals) (mtg_fat (macroTargets g)) |}.

Inductive MealsError := ValidationError | UserNotFound.

(** The handler after authentication. [existing] is the result of
    [MealEntry.findOne] for the user and the day, [userGoals] the goals of
    [User.findById] ([None] when no user). The result is the document
    after the second [save]. *)
Definition meals_handler (now : Z) (uid : string) (userGoals : option Goals)
    (existing : option IMealEntry) (r : MealReq) : MealsError + IMealEntry :=
  if negb (mealReq_valid r) then inl ValidationError else
  match userGoals with
  | None => inl UserNotFound
  | Some g =>
      let nm := newMeal now r in
      let entry :=
        match existing with
        | None =>
            {| userId := uid; date := rq_date r; meals := [nm];
               dailyTotals := zero_nutrition;
               goalProgress := goalProgress_of zero_nutrition g |}
        | Some e =>
            let ms := match findIndex (rq_mealType r) (meals e) with
                      | Some i => replace_at i nm (meals e)
                      | None => meals e ++ [nm]
                      end in
            {| userId := userId e; date := date e; meals := ms;
               dailyTotals := dailyTotals e; goalProgress := goalProgress e |}
        end in
      let saved := pre_save entry in
      let updated :=
        {| userId := userId saved; date := date saved; meals := meals saved;
           dailyTotals := dailyTotals saved;
           goalProgress := goalProgress_of (dailyTotals saved) g |} in
      inr (pre_save updated)
  end.

(** ** Frontend helpers (macrotrack-complete.tsx) *)

(** The numbers [MacroRing] renders. *)
Record MacroRingView := mkMacroRingView {
  ring_percentage : Q;
  ring_remaining : Q;
  ring_consumed_slice : Q;
  ring_remaining_slice : Q
}.

(** [MacroRing({ current, target })]: [percentage] is clamped by
    [Math.min(.., 100)]; the pie has the slices [percentage] and
    [100 - percentage]. *)
Definition MacroRing (current target_ : Q) : MacroRingView :=
  let percentage := if negb (Qle_bool target_ 0)
                    then Qmin ((current / target_) * 100) 100 else 0 in
  let remaining := Qmax (target_ - current) 0 in
  {| ring_percentage := percentage;
     ring_remaining := remaining;
     ring_consumed_slice := percentage;
     ring_remaining_slice := 100 - percentage |}.

(** The nutrition object of [mockApiService.getFoodDetails]. *)
Record DetailsNutrition := mkDetailsNutrition {
  dn_calories : Q;
  dn_protein : Q;
  dn_carbohydrates : Q;
  dn_fat : Q;
  dn_fiber : Q
}.

Definition frontend_mockNutrition (id : Z) : option DetailsNutrition :=
  match id with
  | 1%Z => Some (mkDetailsNutrition 165 31 0 (36 # 10) 0)
  | 2%Z => Some (mkDetailsNutrition 123 (26 # 10) 23 (9 # 10) (18 # 10))
  | 3%Z => Some (mkDetailsNutrition 34 (28 # 10) 7 (4 # 10) (26 # 10))
  | 4%Z => Some (mkDetailsNutrition 208 25 0 12 0)
  | 5%Z => Some (mkDetailsNutrition 59 10 (36 # 10) (4 # 10) 0)
  | 6%Z => Some (mkDetailsNutrition 68 (24 # 10) 12 (14 # 10) (17 # 10))
  | _ => None
  end.

(** [mockApiService.getFoodDetails(id, amount)], its [food.nutrition]. *)
Definition getFoodDetails (id : Z) (amount_ : Q) : DetailsNutrition :=
  let baseNutrition := match frontend_mockNutrition id with
                       | Some n => n
                       | None => mkDetailsNutrition 165 31 0 (36 # 10) 0 end in
  let multiplier := amount_ / 100 in
  {| dn_calories := inject_Z (math_round (dn_calories baseNutrition * multiplier));
     dn_protein := round1 (dn_protein baseNutrition * multiplier);
     dn_carbohydrates := round1 (dn_carbohydrates baseNutrition * multiplier);
     dn_fat := round1 (dn_fat baseNutrition * multiplier);
     dn_fiber := round1 (dn_fiber baseNutrition * multiplier) |}.

(** A food in [MealLogger]'s [selectedFoods]. *)
Record SelectedFood := mkSelectedFood {
  sf_name : string;
  sf_amount : Q;
  sf_nutrition : DetailsNutrition
}.

(** [FoodSearch.handleAddFood]: [{ ...foodDetails.food, name, amount,
    unit: 'grams' }] where [foodDetails = getFoodDetails(id, amount)]. *)
Definition handleAddFood (id : Z) (foodName : string) (amount_ : Q) : SelectedFood :=
  {| sf_name := foodName; sf_amount := amount_;
     sf_nutrition := getFoodDetails id amount_ |}.

(** [MealLogger.handleFoodSelect]: [[...prev, food]]. *)
Definition handleFoodSelect (prev : list SelectedFood) (food : SelectedFood)
    : list SelectedFood :=
  prev ++ [food].

(** [Array.prototype.filter] with the index argument. *)
Fixpoint filteri_from {A} (p : nat -> A -> bool) (i : nat) (l : list A) : list A :=
  match l with
  | [] => []
  | x :: l' => if p i x then x :: filteri_from p (S i) l' else filteri_from p (S i) l'
  end.

(** [MealLogger.handleRemoveFood]: [prev.filter((_, i) => i !== index)]. *)
Definition handleRemoveFood (prev : list SelectedFood) (index : nat) : list SelectedFood :=
  filteri_from (fun i _ => negb (Nat.eqb i index)) 0 prev.

Record LoggerTotals := mkLoggerTotals {
  lt_calories : Q;
  lt_protein : Q;
  lt_carbohydrates : Q;
  lt_fat : Q
}.

(** The reducer of [MealLogger]'s [totalNutrition]. *)
Definition logger_step (totals : LoggerTotals) (food : SelectedFood) : LoggerTotals :=
  let multiplier := sf_amount food / 100 in
  let n := sf_nutrition food in
  {| lt_calories := lt_calories totals + dn_calories n * multiplier;
     lt_protein := lt_protein totals + dn_protein n * multiplier;
     lt_carbohydrates := lt_carbohydrates totals + dn_carbohydrates n * multiplier;
     lt_fat := lt_fat totals + dn_fat n * multiplier |}.

Definition totalNutrition (selectedFoods : list SelectedFood) : LoggerTotals :=
  fold_left logger_step selectedFoods (mkLoggerTotals 0 0 0 0).

(** [authReducer]: the user and token payloads are opaque values
    ([None] is [null]). *)
Record AuthState := mkAuthState {
  as_user : option string;
  as_token : option string;
  isLoading : bool;
  isAuthenticated : bool
}.

Inductive AuthAction :=
  | LOGIN (user token : option string)
  | LOGOUT
  | SET_LOADING (payload : bool)
  | OtherAction (type : string).

Definition authReducer (state : AuthState) (action : AuthAction) : AuthState :=
  match action with
  | LOGIN u t => {| as_user := u; as_token := t; isAuthenticated := true; isLoading := false |}
  | LOGOUT => {| as_user := None; as_token := None; isAuthenticated := false; isLoading := false |}
  | SET_LOADING b => {| as_user := as_user state; as_token := as_token state;
                        isAuthenticated := isAuthenticated state; isLoading := b |}
  | OtherAction _ => state
  end.

(** The initial state of [AuthProvider]'s [useReducer]. *)
Definition initialAuthState : AuthState := mkAuthState None None false false.

(** [UserSchema.virtual('age')]: dates as year, month and day of month. *)
Record JsDate := mkJsDate { year : Z; month : Z; day : Z }.

Definition virtual_age (now birth : JsDate) : Z :=
  let age := (year now - year birth)%Z in
  let monthDiff := (month now - month birth)%Z in
  if (monthDiff <? 0)%Z || ((monthDiff =? 0)%Z && (day now <? day birth)%Z)
  then (age - 1)%Z else age.

(** ** Strings *)

(** [String.prototype.toLowerCase] on ASCII text. *)
Definition ascii_lower (c : Ascii.ascii) : Ascii.ascii :=
  let n := Ascii.nat_of_ascii c in
  if Nat.leb 65 n && Nat.leb n 90 then Ascii.ascii_of_nat (n + 32) else c.

Fixpoint toLowerCase (s : string) : string :=
  match s with
  | EmptyString => EmptyString
  | String c s' => String (ascii_lower c) (toLowerCase s')
  end.

(** [s.includes(sub)]. *)
Fixpoint includes (s sub : string) : bool :=
  match s with
  | EmptyString => String.prefix sub s
  | String _ s' => String.prefix sub s || includes s' sub
  end.

(** ** Authentication helpers (lib/auth.ts) *)



Section Auth.
Context {JWTPayload : Type}.
(** [verifyToken]: the payload, or [None] when [jwt.verify] throws. *)
Context (verifyToken : string -> option JWTPayload).

End Auth.

(** ** Food search (pages/api/foods/search.ts, spoonacularService.ts) *)

Record SpoonacularSearchResult := mkSearchResult {
  sr_id : Z;
  sr_name : string;
  sr_image : string
}.

Definition mockFoods : list SpoonacularSearchResult :=
  [mkSearchResult 1 "Chicken Breast" "chicken-breast.jpg";
   mkSearchResult 2 "Brown Rice" "brown-rice.jpg";
   mkSearchResult 3 "Broccoli" "broccoli.jpg";
   mkSearchResult 4 "Salmon Fillet" "salmon.jpg";
   mkSearchResult 5 "Greek Yogurt" "greek-yogurt.jpg";
   mkSearchResult 6 "Oatmeal" "oatmeal.jpg";
   mkSearchResult 7 "Sweet Potato" "sweet-potato.jpg";
   mkSearchResult 8 "Spinach" "spinach.jpg";
   mkSearchResult 9 "Almonds" "almonds.jpg";
   mkSearchResult 10 "Banana" "banana.jpg"]%string.

(** The end index [Array.prototype.slice(0, end)] uses; [None] is NaN,
    which counts as 0. *)
Definition js_slice_end (len : Z) (end_ : option Z) : Z :=
  match end_ with
  | None => 0
  | Some e => if (e <? 0)%Z then Z.max (len + e) 0 else Z.min e len
  end.

Definition js_slice0 {A} (l : list A) (end_ : option Z) : list A :=
  firstn (Z.to_nat (js_slice_end (Z.of_nat (List.length l)) end_)) l.

Definition getMockSearchResults (query : string) (limit : option Z)
    : list SpoonacularSearchResult :=
  js_slice0 (filter (fun food => includes (toLowerCase (sr_name food)) (toLowerCase query))
               mockFoods) limit.

Inductive SearchResponse :=
  | SR_MethodNotAllowed
  | SR_NotAuthenticated
  | SR_MissingQuery
  | SR_QueryTooShort
  | SR_Ok (query : string) (results : list SpoonacularSearchResult) (count : nat).

(** The search handler in mock mode; [limit] is [parseInt(limit)] of the
    query parameter (default ['20']), [None] for NaN. *)
Definition food_search_handler (is_get authenticated : bool) (query : option string)
    (limit : option Z) : SearchResponse :=
  if negb is_get then SR_MethodNotAllowed
  else if negb authenticated then SR_NotAuthenticated
  else match query with
       | None => SR_MissingQuery
       | Some q =>
           if String.eqb q "" then SR_MissingQuery
           else if Nat.ltb (String.length q) 2 then SR_QueryTooShort
           else let results := getMockSearchResults q limit in
                SR_Ok q results (List.length results)
       end.

(** [getNutrient] inside [getFoodNutrition]: the first nutrient whose
    name contains [name], case-insensitively, rounded to two decimals. *)
Definition getNutrient (nutrition : list (string * Q)) (nm : string) : Q :=
  match find (fun n => includes (toLowerCase (fst n)) (toLowerCase nm)) nutrition with
  | Some n => inject_Z (math_round (snd n * 100)) / 100
  | None => 0
  end.

(** ** Daily summary (pages/api/meals/daily/[date].ts) *)

Definition emptyGoals (g : Goals) : GoalProgressSet :=
  {| gp_calories := mkGoalProgress (dailyCalories g) 0 0 (dailyCalories g);
     gp_protein := mkGoalProgress (mtg_protein (macroTargets g)) 0 0 (mtg_protein (macroTargets g));
     gp_carbohydrates := mkGoalProgress (mtg_carbohydrates (macroTargets g)) 0 0
                           (mtg_carbohydrates (macroTargets g));
     gp_fat := mkGoalProgress (mtg_fat (macroTargets g)) 0 0 (mtg_fat (macroTargets g)) |}.

Inductive DailyResponse :=
  | DR_MethodNotAllowed
  | DR_NotAuthenticated
  | DR_MissingDate
  | DR_InvalidDate
  | DR_Found (e : IMealEntry)
  | DR_Empty (goalProgress : option GoalProgressSet).

(** [date_valid] is [!isNaN(new Date(date).getTime())]; [found] the
    result of [MealEntry.findOne], [userGoals] of [User.findById]. *)
Definition daily_handler (is_get authenticated : bool) (date_ : option string)
    (date_valid : bool) (found : option IMealEntry) (userGoals : option Goals)
    : DailyResponse :=
  if negb is_get then DR_MethodNotAllowed
  else if negb authenticated then DR_NotAuthenticated
  else match date_ with
       | None => DR_MissingDate
       | Some d =>
           if String.eqb d "" then DR_MissingDate
           else if negb date_valid then DR_InvalidDate
           else match found with
                | Some e => DR_Found e
                | None => DR_Empty (option_map emptyGoals userGoals)
                end
       end.

(** ** Login (pages/api/auth/login.ts) *)

Record StoredUser := mkStoredUser {
  su_email : string;
  su_password : string;     (** the bcrypt hash *)
  su_lastLoginAt : Z;
  su_user : IUser
}.

Inductive LoginResponse :=
  | LR_MethodNotAllowed
  | LR_ValidationFailed
  | LR_InvalidCredentials
  | LR_Ok (user : StoredUser).

Section Login.
(** [loginSchema]'s email check and [bcrypt.compare]. *)
Context (isEmail : string -> bool) (comparePassword : string -> string -> bool).

(** [User.findOne({ email })] over the stored users. *)
Definition findUserByEmail (store : list StoredUser) (email : string) : option StoredUser :=
  find (fun u => String.eqb (su_email u) email) store.

Definition set_lastLoginAt (now : Z) (u : StoredUser) : StoredUser :=
  {| su_email := su_email u; su_password := su_password u;
     su_lastLoginAt := now; su_user := su_user u |}.

(** [user.save()] on the document [findOne] returned: the first stored
    user with that email. *)
Fixpoint save_found (email : string) (u' : StoredUser) (store : list StoredUser)
    : list StoredUser :=
  match store with
  | [] => []
  | v :: vs => if String.eqb (su_email v) email then u' :: vs
               else v :: save_found email u' vs
  end.

(** The handler with the store of users; returns the response and the
    store after the handler ran. *)
Definition login_handler (is_post : bool) (now : Z) (store : list StoredUser)
    (email password : string) : LoginResponse * list StoredUser :=
  if negb is_post then (LR_MethodNotAllowed, store)
  else if negb (isEmail email) || String.eqb password "" then (LR_ValidationFailed, store)
  else match findUserByEmail store email with
       | None => (LR_InvalidCredentials, store)
       | Some u =>
           if negb (comparePassword password (su_password u)) then (LR_InvalidCredentials, store)
           else let u' := set_lastLoginAt now u in
                (LR_Ok u', save_found email u' store)
       end.
End Login.

(** * Specification-side notions *)

(** Field-by-field sum of a list of numbers. *)
Definition qsum (l : list Q) : Q := fold_right Qplus 0 l.

Definition meal_totals_are_sums (m : IMeal) : Prop :=
  mt_calories (mealTotals m) == qsum (map (fun f => calories (actualNutrition f)) (foods m)) /\
  mt_protein (mealTotals m) == qsum (map (fun f => protein (actualNutrition f)) (foods m)) /\
  mt_carbohydrates (mealTotals m) == qsum (map (fun f => carbohydrates (actualNutrition f)) (foods m)) /\
  mt_fat (mealTotals m) == qsum (map (fun f => fat (actualNutrition f)) (foods m)) /\
  mt_fiber (mealTotals m) == qsum (map (fun f => fiber (actualNutrition f)) (foods m)).

Definition daily_totals_are_sums (e : IMealEntry) : Prop :=
  calories (dailyTotals e) == qsum (map (fun m => mt_calories (mealTotals m)) (meals e)) /\
  protein (dailyTotals e) == qsum (map (fun m => mt_protein (mealTotals m)) (meals e)) /\
  carbohydrates (dailyTotals e) == qsum (map (fun m => mt_carbohydrates (mealTotals m)) (meals e)) /\
  fat (dailyTotals e) == qsum (map (fun m => mt_fat (mealTotals m)) (meals e)) /\
  fiber (dailyTotals e) == qsum (map (fun m => mt_fiber (mealTotals m)) (meals e)).

Definition extended_fields_zero (n : INutrition) : Prop :=
  sugar n = 0 /\ sodium n = 0 /\ potassium n = 0 /\ calcium n = 0 /\ iron n = 0.

(** * Further specification notions and scenarios *)

(** [r] is an integer nearest to [x]. *)
Definition rounded_int (r x : Q) : Prop :=
  (exists z, r = inject_Z z) /\ x - (1 # 2) < r /\ r <= x + (1 # 2).

(** [r] is a multiple of one tenth nearest to [x]. *)
Definition rounded_tenth (r x : Q) : Prop :=
  (exists z, r = inject_Z z / 10) /\ x - (1 # 20) < r /\ r <= x + (1 # 20).

(** Specification: a gram-valued macro of the actual record. *)
Definition scaled_tenth (n : SpoonacularNutrition) (get : SpoonacularNutrition -> Q)
    (base : Q) (amt : Q) : Prop :=
  rounded_tenth (get n) (base * (amt / 100)).

(** The progress record the specification describes for one nutrient. *)
Definition progress_ok (actual_ target_ : Q) (gp : IGoalProgress) : Prop :=
  target gp = target_ /\
  actual gp == inject_Z (math_round (actual_ * 100)) / 100 /\
  (0 < target_ -> percentage gp = math_round (actual_ / target_ * 100)) /\
  (target_ == 0 -> percentage gp = 0%Z) /\
  remaining gp == Qmax (target_ - actual_) 0 /\
  0 <= remaining gp.

Definition scenario_profile : Profile :=
  mkProfile 1990 male 180 cm 75 kg "moderate".


(** Specification: the macros and their energy per gram. *)
Inductive Macro := MProtein | MCarbohydrates | MFat.

Definition kcalPerGram (x : Macro) : Q :=
  match x with MProtein => 4 | MCarbohydrates => 4 | MFat => 9 end.

Definition macroTarget (t : MacroTargets) (x : Macro) : Q :=
  match x with
  | MProtein => mtg_protein t
  | MCarbohydrates => mtg_carbohydrates t
  | MFat => mtg_fat t
  end.

Definition macroPercentage (p : MacroPercentages) (x : Macro) : Z :=
  match x with
  | MProtein => mp_protein p
  | MCarbohydrates => mp_carbohydrates p
  | MFat => mp_fat p
  end.

Definition activity_levels : list string :=
  ["sedentary"; "light"; "moderate"; "active"; "very_active"]%string.

(** The specification's scaling of a per-reference record. *)
Definition spec_scale (ref : INutrition) (amt refAmount : Q) : INutrition :=
  let k := amt / refAmount in
  {| calories := inject_Z (math_round (calories ref * k));
     protein := round1 (protein ref * k);
     carbohydrates := round1 (carbohydrates ref * k);
     fat := round1 (fat ref * k);
     fiber := round1 (fiber ref * k);
     sugar := round1 (sugar ref * k);
     sodium := round1 (sodium ref * k);
     potassium := round1 (potassium ref * k);
     calcium := round1 (calcium ref * k);
     iron := round1 (iron ref * k) |}.

Definition nutrition_eq (a b : INutrition) : Prop :=
  calories a == calories b /\ protein a == protein b /\
  carbohydrates a == carbohydrates b /\ fat a == fat b /\ fiber a == fiber b /\
  sugar a == sugar b /\ sodium a == sodium b /\ potassium a == potassium b /\
  calcium a == calcium b /\ iron a == iron b.

(** C9 as stated: every food stored by the meal handler carries the
    reference nutrition scaled by [amount / 100]. *)
Definition stored_actual_is_scaled : Prop :=
  forall now uid g ex r e',
    meals_handler now uid g ex r = inr e' ->
    forall m f, In m (meals e') -> In f (foods m) ->
      nutrition_eq (actualNutrition f) (spec_scale (nutritionPer100g f) (amount f) 100).

(** Request used below: 200g of a food of 100 kcal per 100g, for which
    the client sends 5 kcal as actual nutrition. *)
Definition mismatched_req : MealReq :=
  mkMealReq 0 breakfast None
    [mkFoodReq None None "Chicken Breast" 200 "grams"
       (mkNutritionReq 100 0 0 0 0) (mkNutritionReq 5 0 0 0 0) None].

Definition goals0 : Goals := mkGoals 2000 (mkMacroTargets 150 250 65 25) None.

Definition oatmeal_req (kcal : Q) : FoodReq :=
  mkFoodReq None None "Oatmeal" 100 "grams"
    (mkNutritionReq kcal 0 0 0 0) (mkNutritionReq kcal 0 0 0 0) None.

Definition breakfast_req (kcal : Q) : MealReq :=
  mkMealReq 0 breakfast None [oatmeal_req kcal].

(** A saved day holding a 300 kcal breakfast. *)
Definition day300 : IMealEntry :=
  pre_save (mkMealEntry "u" 0 [newMeal 0 (breakfast_req 300)] zero_nutrition
              (goalProgress_of zero_nutrition goals0)).

(** * Notions for the further properties *)

(** The same profile with another gender. *)
Definition set_gender (g : Gender) (p : Profile) : Profile :=
  mkProfile (birthYear p) g (heightValue p) (heightUnit p) (weightValue p)
    (weightUnit p) (activityLevel p).

(** An auth state that is authenticated, or holds neither user nor token. *)
Definition auth_consistent (s : AuthState) : Prop :=
  isAuthenticated s = true \/ (as_user s = None /\ as_token s = None).

(** What one selected food adds to a MealLogger total. *)
Definition logger_contribution (get : DetailsNutrition -> Q) (f : SelectedFood) : Q :=
  get (sf_nutrition f) * (sf_amount f / 100).

(** Two goal progress records showing the same numbers. *)
Definition progress_equiv (a b : IGoalProgress) : Prop :=
  target a == target b /\ actual a == actual b /\
  percentage a = percentage b /\ remaining a == remaining b.

(** A lunch of oatmeal of the given calories. *)
Definition lunch_req (kcal : Q) : MealReq :=
  mkMealReq 0 lunch None [oatmeal_req kcal].

(** A food of 0.05 g. *)
Definition pinch_req : FoodReq :=
  mkFoodReq None None "Salt" (1 # 20) "grams"
    (mkNutritionReq 0 0 0 0 0) (mkNutritionReq 0 0 0 0 0) None.

(** A user whose macro targets (900/17 g each) account for 900 kcal. *)
Definition balanced_user : IUser :=
  mkUser scenario_profile (mkGoals 900 (mkMacroTargets (900 # 17) (900 # 17) (900 # 17) 25) None).

(** A store with one user whose password hash is compared verbatim. *)
Definition one_user_store : list StoredUser :=
  [mkStoredUser "ana@example.com" "secret" 0 (mkUser scenario_profile goals0)].

Definition simple_isEmail (s : string) : bool := negb (String.eqb s "").

(** * Lemmas on the aggregation *)

Section Additive.
Context {A B : Type} (step : B -> A -> B) (p : B -> Q) (g : A -> Q).
Hypothesis step_additive : forall b a, p (step b a) = p b + g a.

Lemma fold_left_additive :
  forall l b, p (fold_left step l b) == p b + qsum (map g l).
Proof.
  induction l as [|a l IH]; intros b; simpl.
  - ring.
  - rewrite IH, step_additive. ring.
Qed.
End Additive.

Lemma fold_left_additive0 {A B} (step : B -> A -> B) (p : B -> Q) (g : A -> Q) l b :
  (forall b a, p (step b a) = p b + g a) -> p b = 0 ->
  p (fold_left step l b) == qsum (map g l).
Proof.
  intros Hs Hb. rewrite (fold_left_additive step p g Hs), Hb. ring.
Qed.

Lemma calculatedTotals_are_sums (m : IMeal) :
  meal_totals_are_sums (refresh_meal m).
Proof.
  unfold meal_totals_are_sums, refresh_meal, calculatedTotals; simpl.
  repeat split; apply fold_left_additive0; reflexivity.
Qed.

Lemma compute_dailyTotals_are_sums (e : IMealEntry) :
  daily_totals_are_sums (pre_save e).
Proof.
  unfold daily_totals_are_sums, pre_save, compute_dailyTotals; simpl.
  repeat split; apply fold_left_additive0; reflexivity.
Qed.

Lemma fold_add_meal_extended_zero (ms : list IMeal) (acc : INutrition) :
  extended_fields_zero acc -> extended_fields_zero (fold_left add_meal ms acc).
Proof.
  revert acc; induction ms as [|m ms IH]; intros acc Hacc; simpl; [exact Hacc|].
  apply IH.
  destruct Hacc as (H1 & H2 & H3 & H4 & H5).
  unfold extended_fields_zero, add_meal; simpl.
  rewrite H1, H2, H3, H4, H5. repeat split.
Qed.

(** * Claims *)

(** C1: after the MealEntry pre-save hook, every meal's totals are the
    field-by-field sums (calories, protein, carbohydrates, fat, fiber) of
    [actualNutrition] over its foods, the daily totals are the
    field-by-field sums of the meal totals, and an empty food list (or an
    empty day) gives all-zero totals. *)
Theorem pre_save_totals_are_sums (e : IMealEntry) :
  (forall m, In m (meals (pre_save e)) ->
     meal_totals_are_sums m /\ (foods m = [] -> mealTotals m = zero_mealTotals)) /\
  daily_totals_are_sums (pre_save e) /\
  (meals e = [] -> dailyTotals (pre_save e) = zero_nutrition).
Proof.
  split; [|split].
  - intros m Hm. simpl in Hm. apply in_map_iff in Hm as (m0 & <- & _).
    split; [apply calculatedTotals_are_sums|].
    unfold refresh_meal; simpl. intros ->. reflexivity.
  - apply compute_dailyTotals_are_sums.
  - intros He. unfold pre_save. rewrite He. reflexivity.
Qed.

(** C10: after the MealEntry pre-save hook the extended fields of the
    daily totals (sugar, sodium, potassium, calcium, iron) are exactly 0,
    whatever the foods of the day carry. *)
Theorem pre_save_extended_fields_zero (e : IMealEntry) :
  extended_fields_zero (dailyTotals (pre_save e)).
Proof.
  apply fold_add_meal_extended_zero. repeat split.
Qed.

(** * Rounding *)

Lemma math_round_bounds (x : Q) :
  x - (1 # 2) < inject_Z (math_round x) /\ inject_Z (math_round x) <= x + (1 # 2).
Proof.
  unfold math_round. split.
  - pose proof (Qlt_floor (x + (1 # 2))) as H.
    rewrite inject_Z_plus in H. change (inject_Z 1) with 1 in H.
    lra.
  - apply Qfloor_le.
Qed.

Lemma math_round_rounded_int (x : Q) : rounded_int (inject_Z (math_round x)) x.
Proof.
  split; [eexists; reflexivity|]. apply math_round_bounds.
Qed.

Lemma round1_rounded_tenth (x : Q) : rounded_tenth (round1 x) x.
Proof.
  unfold round1. split; [eexists; reflexivity|].
  destruct (math_round_bounds (x * 10)) as [H1 H2].
  set (r := inject_Z (math_round (x * 10))) in *.
  split.
  - setoid_replace (x - (1 # 20)) with ((x * 10 - (1 # 2)) / 10) by field.
    apply Qmult_lt_r; [reflexivity|exact H1].
  - setoid_replace (x + (1 # 20)) with ((x * 10 + (1 # 2)) / 10) by field.
    apply Qmult_le_r; [reflexivity|exact H2].
Qed.

(** C4: the per-100g mock record scaled by [amount / 100] has its calories
    rounded to the nearest integer and each gram-valued macro (protein,
    carbohydrates, fat, fiber, sugar) rounded to one decimal place; for
    food 1 ({calories 165, protein 31, carbohydrates 0, fat 3.6} per 100g)
    at 150g the result is {248, 46.5, 0, 5.4}. *)
Theorem mock_nutrition_rounding (id : Z) (amt : Q) (u : string) :
  let b := baseNutrition_of id in
  let n := sp_nutrition (getMockNutritionData id amt u) in
  rounded_int (sp_calories n) (sp_calories b * (amt / 100)) /\
  scaled_tenth n sp_protein (sp_protein b) amt /\
  scaled_tenth n sp_carbohydrates (sp_carbohydrates b) amt /\
  scaled_tenth n sp_fat (sp_fat b) amt /\
  scaled_tenth n sp_fiber (sp_fiber b) amt /\
  scaled_tenth n sp_sugar (js_or0 (sp_sugar b)) amt /\
  (let b1 := baseNutrition_of 1 in
   let n1 := sp_nutrition (getMockNutritionData 1 150 "grams") in
   sp_calories b1 == 165 /\ sp_protein b1 == 31 /\ sp_carbohydrates b1 == 0 /\
   sp_fat b1 == 36 # 10 /\
   sp_calories n1 == 248 /\ sp_protein n1 == 465 # 10 /\
   sp_carbohydrates n1 == 0 /\ sp_fat n1 == 54 # 10).
Proof.
  intros b n. unfold n, getMockNutritionData, scaled_tenth; simpl.
  repeat split; try apply math_round_rounded_int; try apply round1_rounded_tenth;
    vm_compute; reflexivity.
Qed.

(** * Goal progress *)

Lemma calculateGoalProgress_ok (a t : Q) :
  progress_ok a t (calculateGoalProgress a t).
Proof.
  unfold progress_ok, calculateGoalProgress; simpl.
  repeat split.
  - intros Ht. destruct (Qle_bool t 0) eqn:E; [|reflexivity].
    apply Qle_bool_iff in E. exfalso. apply (Qlt_not_le _ _ Ht E).
  - intros Ht. destruct (Qle_bool t 0) eqn:E; [reflexivity|].
    exfalso. rewrite <- Bool.not_true_iff_false in E. apply E.
    apply Qle_bool_iff. rewrite Ht. apply Qle_refl.
  - apply Q.max_comm.
  - apply Q.le_max_l.
Qed.

(** C5: each of the four progress records built from the daily totals
    and the goals stores the target, the actual value rounded to two
    decimals, [round(actual/target*100)] as percentage when the target is
    positive and 0 when it is 0, and [max(target - actual, 0)] as
    remaining, which is never negative; goals 2000 kcal and 1450 kcal
    eaten give {target 2000, actual 1450, percentage 73, remaining 550}. *)
Theorem goalProgress_records (d : INutrition) (g : Goals) :
  let gp := goalProgress_of d g in
  progress_ok (calories d) (dailyCalories g) (gp_calories gp) /\
  progress_ok (protein d) (mtg_protein (macroTargets g)) (gp_protein gp) /\
  progress_ok (carbohydrates d) (mtg_carbohydrates (macroTargets g)) (gp_carbohydrates gp) /\
  progress_ok (fat d) (mtg_fat (macroTargets g)) (gp_fat gp) /\
  (let d0 := mkNutrition 1450 95 180 45 0 0 0 0 0 0 in
   let g0 := mkGoals 2000 (mkMacroTargets 150 250 65 25) None in
   let c := gp_calories (goalProgress_of d0 g0) in
   target c == 2000 /\ actual c == 1450 /\ percentage c = 73%Z /\ remaining c == 550).
Proof.
  intros gp. repeat split; try apply calculateGoalProgress_ok;
    vm_compute; reflexivity.
Qed.

(** * Macro percentages *)

(** C8: when [goals.macroTargets] or [goals.dailyCalories] is modified,
    the User pre-save hook sets every macro percentage to
    [round(target * kcalPerGram / dailyCalories * 100)]. *)
Theorem user_pre_save_macroPercentages (mtm dcm : bool) (u : IUser)
    (Hmod : mtm = true \/ dcm = true) :
  (exists p,
    macroPercentages (goals (user_pre_save mtm dcm u)) = Some p /\
    forall x, macroPercentage p x =
      math_round (macroTarget (macroTargets (goals u)) x * kcalPerGram x
                  / dailyCalories (goals u) * 100)) /\
  macroPercentages (goals (user_pre_save true false
    (mkUser scenario_profile (mkGoals 2000 (mkMacroTargets 150 250 44 25) None)))) =
    Some (mkMacroPercentages 30 50 20).
Proof.
  split; [|vm_compute; reflexivity].
  unfold user_pre_save.
  assert (E : mtm || dcm = true) by (destruct Hmod as [->| ->]; [reflexivity|apply orb_true_r]).
  rewrite E. eexists. split; [reflexivity|].
  intros []; reflexivity.
Qed.

(** * Basal metabolic rate *)

(** C2 (as stated): for weight 75 kg, height 180 cm, age 34 (year 2024,
    born 1990) and male gender [generateBMR] returns 1650.  Refuted:
    it returns 1710. *)
Lemma generateBMR_scenario_not_1650 : generateBMR 2024 scenario_profile <> 1650%Z.
Proof.
  vm_compute. discriminate.
Qed.

(** C2 (amended): for male gender with metric units [generateBMR] is
    [round(10*weight + 6.25*height - 5*age + 5)], age being the difference
    of the calendar years; for 75 kg, 180 cm, age 34 it returns 1710. *)
Theorem generateBMR_male_formula :
  (forall cy by_ h w lvl,
     generateBMR cy (mkProfile by_ male h cm w kg lvl) =
     math_round (10 * w + (625 # 100) * h - 5 * inject_Z (cy - by_) + 5)) /\
  (2024 - birthYear scenario_profile = 34)%Z /\
  generateBMR 2024 scenario_profile = 1710%Z.
Proof.
  repeat split; vm_compute; reflexivity.
Qed.

(** * Total daily energy expenditure *)

Lemma eqb_false_of_not_in (s : string) (l : list string) (t : string) :
  ~ In s l -> In t l -> String.eqb s t = false.
Proof.
  intros Hn Ht. destruct (String.eqb_spec s t) as [->|]; [contradiction|reflexivity].
Qed.

Lemma existsb_eqb_false (s : string) (l : list string) :
  ~ In s l -> existsb (String.eqb s) l = false.
Proof.
  intros Hn. apply Bool.not_true_iff_false. intros H.
  apply existsb_exists in H as (t & Ht & E).
  apply String.eqb_eq in E. subst. contradiction.
Qed.

(** C7 (code defect): [calculateTDEE] is [round(bmr * multiplier)] for the
    five levels and falls back to 1.2 for a level that is none of them,
    except for the property names inherited from [Object.prototype]:
    for ["constructor"] the lookup yields a function, [|| 1.2] keeps it
    and the result is NaN. *)
Theorem calculateTDEE_prototype_key_NaN :
  (forall bmr, calculateTDEE bmr "sedentary" = JNum (inject_Z (math_round (bmr * (12 # 10))))) /\
  (forall bmr, calculateTDEE bmr "light" = JNum (inject_Z (math_round (bmr * (1375 # 1000))))) /\
  (forall bmr, calculateTDEE bmr "moderate" = JNum (inject_Z (math_round (bmr * (155 # 100))))) /\
  (forall bmr, calculateTDEE bmr "active" = JNum (inject_Z (math_round (bmr * (1725 # 1000))))) /\
  (forall bmr, calculateTDEE bmr "very_active" = JNum (inject_Z (math_round (bmr * (19 # 10))))) /\
  (forall bmr lvl, ~ In lvl activity_levels -> ~ In lvl object_prototype_keys ->
     calculateTDEE bmr lvl = JNum (inject_Z (math_round (bmr * (12 # 10))))) /\
  calculateTDEE 1650 "constructor" = JNaN.
Proof.
  repeat split; try reflexivity.
  intros bmr lvl Hl Hp.
  unfold calculateTDEE, multipliers.
  rewrite !(eqb_false_of_not_in lvl activity_levels) by (assumption || simpl; tauto).
  rewrite (existsb_eqb_false lvl object_prototype_keys Hp).
  reflexivity.
Qed.

(** * Food details amount check *)

(** C3 (code defect): for an authenticated request with a numeric id,
    the amount check rejects NaN, non-positive finite amounts and
    -Infinity with INVALID_AMOUNT and lets every positive finite amount
    through, but it also lets +Infinity ([parseFloat('Infinity')])
    through to [getFoodNutrition]. *)
Theorem food_details_accepts_infinity :
  (forall q, food_details_handler true true true (JNum q) JNaN = FD_InvalidAmount) /\
  (forall q a, a <= 0 -> food_details_handler true true true (JNum q) (JNum a) = FD_InvalidAmount) /\
  (forall q, food_details_handler true true true (JNum q) JNegInf = FD_InvalidAmount) /\
  (forall q a, 0 < a -> food_details_handler true true true (JNum q) (JNum a) = FD_Ok (JNum q) (JNum a)) /\
  food_details_handler true true true (JNum 1) JPosInf = FD_Ok (JNum 1) JPosInf.
Proof.
  repeat split; try reflexivity.
  - intros q a Ha. unfold food_details_handler; simpl.
    apply Qle_bool_iff in Ha. rewrite Ha. reflexivity.
  - intros q a Ha. unfold food_details_handler; simpl.
    destruct (Qle_bool a 0) eqn:E; [|reflexivity].
    apply Qle_bool_iff in E. exfalso. apply (Qlt_not_le _ _ Ha E).
Qed.

(** * Meal submission *)

Lemma MealType_eqb_true (a b : MealType) : MealType_eqb a b = true <-> a = b.
Proof.
  destruct a, b; simpl; split; congruence.
Qed.

Lemma findIndex_Some (t : MealType) (ms : list IMeal) (i : nat) :
  findIndex t ms = Some i -> exists m, nth_error ms i = Some m /\ mealType m = t.
Proof.
  revert i; induction ms as [|m ms IH]; intros i H; simpl in H; [discriminate|].
  destruct (MealType_eqb (mealType m) t) eqn:E.
  - injection H as <-. exists m. split; [reflexivity|]. apply MealType_eqb_true, E.
  - destruct (findIndex t ms) as [j|] eqn:F; simpl in H; [|discriminate].
    injection H as <-. apply (IH j eq_refl).
Qed.

Lemma findIndex_None (t : MealType) (ms : list IMeal) :
  findIndex t ms = None -> ~ In t (map mealType ms).
Proof.
  induction ms as [|m ms IH]; simpl; intros H; [tauto|].
  destruct (MealType_eqb (mealType m) t) eqn:E; [discriminate|].
  destruct (findIndex t ms) eqn:F; [discriminate|].
  intros [Hm|Hin]; [|exact (IH eq_refl Hin)].
  rewrite Hm in E. destruct t; discriminate.
Qed.

Lemma map_replace_at_same {A B} (f : A -> B) (l : list A) (i : nat) (x z : A) :
  nth_error l i = Some x -> f x = f z -> map f (replace_at i z l) = map f l.
Proof.
  revert i; induction l as [|a l IH]; intros [|i] Hx Hf; simpl in *; try discriminate.
  - injection Hx as ->. rewrite Hf. reflexivity.
  - rewrite (IH i Hx Hf). reflexivity.
Qed.

Lemma replace_at_In {A} (l : list A) (i : nat) (x z : A) :
  nth_error l i = Some x -> In z (replace_at i z l).
Proof.
  revert i; induction l as [|a l IH]; intros [|i] Hx; simpl in *; try discriminate.
  - left; reflexivity.
  - right. exact (IH i Hx).
Qed.

Lemma replace_at_unique {A B} (f : A -> B) (l : list A) (i : nat) (x y z : A) :
  NoDup (map f l) -> nth_error l i = Some x ->
  In y (replace_at i z l) -> f y = f x -> y = z.
Proof.
  revert i; induction l as [|a l IH]; intros [|i] Hnd Hx Hy Hf; simpl in *; try discriminate;
    inversion Hnd as [|? ? Hnin Hnd']; subst.
  - injection Hx as ->. destruct Hy as [->|Hy]; [reflexivity|].
    exfalso. apply Hnin. rewrite <- Hf. apply in_map, Hy.
  - destruct Hy as [<-|Hy].
    + exfalso. apply Hnin. rewrite Hf. apply in_map, (nth_error_In _ _ Hx).
    + exact (IH i Hnd' Hx Hy Hf).
Qed.

(** The meals of the document the handler returns: the edited list,
    refreshed by each of the two saves. *)
Lemma meals_handler_meals (now : Z) (uid : string) (g : option Goals)
    (ex : option IMealEntry) (r : MealReq) (e' : IMealEntry) :
  meals_handler now uid g ex r = inr e' ->
  meals e' = map refresh_meal (map refresh_meal
    (match ex with
     | None => [newMeal now r]
     | Some e => match findIndex (rq_mealType r) (meals e) with
                 | Some i => replace_at i (newMeal now r) (meals e)
                 | None => meals e ++ [newMeal now r]
                 end
     end)).
Proof.
  unfold meals_handler. destruct (negb (mealReq_valid r)); [discriminate|].
  destruct g as [g|]; [|discriminate].
  intros H. injection H as <-. destruct ex; reflexivity.
Qed.

Lemma In_refresh2 (m : IMeal) (ms : list IMeal) :
  In m (map refresh_meal (map refresh_meal ms)) ->
  exists m0, In m0 ms /\ mealType m = mealType m0 /\ foods m = foods m0.
Proof.
  rewrite map_map. intros H. apply in_map_iff in H as (m0 & <- & Hin).
  exists m0. auto.
Qed.

Lemma map_mealType_refresh2 (ms : list IMeal) :
  map mealType (map refresh_meal (map refresh_meal ms)) = map mealType ms.
Proof.
  rewrite !map_map. reflexivity.
Qed.

(** The edited list before the saves: one meal per type, the submitted
    meal standing alone for its type. *)
Lemma edited_meals_replace (now : Z) (ex : option IMealEntry) (r : MealReq) :
  (forall e, ex = Some e -> NoDup (map mealType (meals e))) ->
  let ms := match ex with
            | None => [newMeal now r]
            | Some e => match findIndex (rq_mealType r) (meals e) with
                        | Some i => replace_at i (newMeal now r) (meals e)
                        | None => meals e ++ [newMeal now r]
                        end
            end in
  NoDup (map mealType ms) /\
  (forall m, In m ms -> mealType m = rq_mealType r -> m = newMeal now r).
Proof.
  intros Hnd ms. subst ms. set (nm := newMeal now r).
  destruct ex as [e|].
  - specialize (Hnd e eq_refl).
    destruct (findIndex (rq_mealType r) (meals e)) as [i|] eqn:F.
    + destruct (findIndex_Some _ _ _ F) as (x & Hx & Ht).
      split.
      * rewrite (map_replace_at_same mealType (meals e) i x nm Hx); [exact Hnd|].
        rewrite Ht. reflexivity.
      * intros m Hm Hmt. apply (replace_at_unique mealType (meals e) i x); auto.
        congruence.
    + pose proof (findIndex_None _ _ F) as Hn.
      split.
      * rewrite map_app. simpl. apply NoDup_app; auto using NoDup_cons, NoDup_nil.
        intros t Ht [Ht'|[]]. subst t. apply Hn, Ht.
      * intros m Hm Hmt. apply in_app_or in Hm as [Hm|[Hm|[]]]; [|symmetry; exact Hm].
        exfalso. apply Hn. rewrite <- Hmt. apply in_map, Hm.
  - split.
    + constructor; [simpl; tauto|constructor].
    + intros m [<-|[]] _. reflexivity.
Qed.

Lemma edited_meals_In_new (now : Z) (ex : option IMealEntry) (r : MealReq) :
  In (newMeal now r)
    (match ex with
     | None => [newMeal now r]
     | Some e => match findIndex (rq_mealType r) (meals e) with
                 | Some i => replace_at i (newMeal now r) (meals e)
                 | None => meals e ++ [newMeal now r]
                 end
     end).
Proof.
  destruct ex as [e|]; [|left; reflexivity].
  destruct (findIndex (rq_mealType r) (meals e)) as [i|] eqn:F.
  - destruct (findIndex_Some _ _ _ F) as (x & Hx & _). apply (replace_at_In _ _ x), Hx.
  - apply in_or_app. right. left. reflexivity.
Qed.

(** C6: submitting a meal for a type the day already holds replaces that
    meal: when the day held at most one meal per type, the saved day
    still does, and its meal of the submitted type has exactly the
    submitted foods (the earlier foods are gone). *)
Theorem meals_handler_replaces_meal (now : Z) (uid : string) (g : option Goals)
    (ex : option IMealEntry) (r : MealReq) (e' : IMealEntry)
    (Hrun : meals_handler now uid g ex r = inr e')
    (Hnd : forall e, ex = Some e -> NoDup (map mealType (meals e))) :
  NoDup (map mealType (meals e')) /\
  (forall m, In m (meals e') -> mealType m = rq_mealType r ->
     foods m = map (food_of_req now) (rq_foods r)).
Proof.
  rewrite (meals_handler_meals _ _ _ _ _ _ Hrun).
  destruct (edited_meals_replace now ex r Hnd) as [Hu Hone].
  split.
  - rewrite map_mealType_refresh2. exact Hu.
  - intros m Hm Ht. apply In_refresh2 in Hm as (m0 & Hin & Ht0 & Hf).
    rewrite Hf, (Hone m0 Hin); [reflexivity|congruence].
Qed.

(** C9 refuted: the handler stores 5 kcal where scaling gives 200 kcal. *)
Lemma stored_actual_not_scaled : ~ stored_actual_is_scaled.
Proof.
  intros H.
  destruct (meals_handler 0 "u" (Some goals0) None mismatched_req) as [err|e'] eqn:Hrun.
  - vm_compute in Hrun. discriminate.
  - pose proof Hrun as Hm. apply meals_handler_meals in Hm.
    destruct (H _ _ _ _ _ _ Hrun (refresh_meal (refresh_meal (newMeal 0 mismatched_req)))
                (food_of_req 0 (hd (mkFoodReq None None "" 0 "" (mkNutritionReq 0 0 0 0 0)
                                   (mkNutritionReq 0 0 0 0 0) None) (rq_foods mismatched_req))))
      as [Hc _].
    + rewrite Hm. left. reflexivity.
    + left. reflexivity.
    + vm_compute in Hc. discriminate.
Qed.

(** C9 (amended): the submitted meal is stored with the client-supplied
    [actualNutrition] of each food (cast with zero defaults), not with a
    value recomputed from [nutritionPer100g] and [amount]. *)
Theorem meals_handler_keeps_client_actual (now : Z) (uid : string) (g : option Goals)
    (ex : option IMealEntry) (r : MealReq) (e' : IMealEntry)
    (Hrun : meals_handler now uid g ex r = inr e') :
  exists m, In m (meals e') /\ mealType m = rq_mealType r /\
    map actualNutrition (foods m) =
    map (fun f => cast_nutrition (rq_actualNutrition f)) (rq_foods r).
Proof.
  exists (refresh_meal (refresh_meal (newMeal now r))).
  rewrite (meals_handler_meals _ _ _ _ _ _ Hrun).
  split; [|split; [reflexivity|]].
  - apply in_map, in_map, edited_meals_In_new.
  - simpl. rewrite map_map. reflexivity.
Qed.

(** * Witnesses *)

(** Breakfast of 300 kcal, then a new breakfast of 400 kcal: one
    breakfast remains and the day totals 400 kcal, not 700. *)
Lemma meals_handler_replaces_meal_witness :
  exists e',
    meals_handler 1 "u" (Some goals0) (Some day300) (breakfast_req 400) = inr e' /\
    calories (dailyTotals day300) == 300 /\
    (NoDup (map mealType (meals e')) /\
     (forall m, In m (meals e') -> mealType m = breakfast ->
        foods m = map (food_of_req 1) [oatmeal_req 400])) /\
    calories (dailyTotals e') == 400.
Proof.
  eexists. split; [reflexivity|]. split; [vm_compute; reflexivity|]. split.
  - apply (meals_handler_replaces_meal 1 "u" (Some goals0) (Some day300) (breakfast_req 400)).
    + reflexivity.
    + intros e He. injection He as <-. vm_compute.
      constructor; [simpl; tauto|constructor].
  - vm_compute. reflexivity.
Defined.

Lemma user_pre_save_macroPercentages_witness :
  (true = true \/ false = true) /\
  ((exists p,
     macroPercentages (goals (user_pre_save true false
       (mkUser scenario_profile goals0))) = Some p /\
     forall x, macroPercentage p x =
       math_round (macroTarget (macroTargets goals0) x * kcalPerGram x
                   / dailyCalories goals0 * 100)) /\
   macroPercentages (goals (user_pre_save true false
    (mkUser scenario_profile (mkGoals 2000 (mkMacroTargets 150 250 44 25) None)))) =
    Some (mkMacroPercentages 30 50 20)).
Proof.
  split; [left; reflexivity|].
  apply (user_pre_save_macroPercentages true false (mkUser scenario_profile goals0)).
  left; reflexivity.
Defined.

Lemma meals_handler_keeps_client_actual_witness :
  exists e',
    meals_handler 0 "u" (Some goals0) None mismatched_req = inr e' /\
    exists m, In m (meals e') /\ mealType m = breakfast /\
      map actualNutrition (foods m) =
      map (fun f => cast_nutrition (rq_actualNutrition f)) (rq_foods mismatched_req).
Proof.
  eexists. split; [reflexivity|].
  apply (meals_handler_keeps_client_actual 0 "u" (Some goals0) None mismatched_req).
  reflexivity.
Defined.

(** A day whose only food carries 12 g of sugar still totals 0 g of
    sugar after the pre-save hook. *)
Example sugar_not_aggregated :
  let food := mkFood None None "Banana" 100 "grams"
                (mkNutrition 89 1 23 0 3 12 1 358 5 0)
                (mkNutrition 89 1 23 0 3 12 1 358 5 0) 0 false in
  let e := mkMealEntry "u" 0 [mkMeal snack None [food] zero_mealTotals]
             zero_nutrition (goalProgress_of zero_nutrition goals0) in
  sugar (dailyTotals (pre_save e)) = 0 /\ calories (dailyTotals (pre_save e)) == 89.
Proof.
  vm_compute. split; reflexivity.
Qed.

(** * Further properties of the code *)

Lemma refresh_meal_idem (m : IMeal) : refresh_meal (refresh_meal m) = refresh_meal m.
Proof. reflexivity. Qed.

Lemma qsum_app (l1 l2 : list Q) : qsum (l1 ++ l2) == qsum l1 + qsum l2.
Proof.
  induction l1 as [|x l1 IH]; simpl; [ring|]. rewrite IH. ring.
Qed.

Lemma findIndex_None_iff (t : MealType) (ms : list IMeal) :
  ~ In t (map mealType ms) -> findIndex t ms = None.
Proof.
  induction ms as [|m ms IH]; simpl; intros H; [reflexivity|].
  destruct (MealType_eqb (mealType m) t) eqn:E.
  - exfalso. apply H. left. apply MealType_eqb_true, E.
  - rewrite IH; [reflexivity|]. intros Hin. apply H. right. exact Hin.
Qed.

Lemma replace_at_keeps {A} (l : list A) (i : nat) (m z : A) :
  In m l -> nth_error l i <> Some m -> In m (replace_at i z l).
Proof.
  revert i; induction l as [|a l IH]; intros [|i] Hin Hi; simpl in *; try tauto.
  - destruct Hin as [<-|Hin]; [congruence|]. right. exact Hin.
  - destruct Hin as [<-|Hin]; [left; reflexivity|]. right. apply IH; assumption.
Qed.

Lemma meals_handler_saved (now : Z) (uid : string) (g : option Goals)
    (ex : option IMealEntry) (r : MealReq) (e' : IMealEntry) :
  meals_handler now uid g ex r = inr e' -> exists u, e' = pre_save u.
Proof.
  unfold meals_handler. destruct (negb (mealReq_valid r)); [discriminate|].
  destruct g as [g|]; [|discriminate].
  intros H. injection H as <-. eexists. reflexivity.
Qed.

(** The MealEntry pre-save hook is idempotent: saving a saved day again
    changes nothing. *)
Theorem pre_save_idempotent (e : IMealEntry) : pre_save (pre_save e) = pre_save e.
Proof.
  unfold pre_save at 1 3. simpl. rewrite map_map. reflexivity.
Qed.

(** Submitting a meal leaves every meal of another type in the day in
    place (with its totals recomputed by the hook). *)
Theorem meals_handler_keeps_other_meals (now : Z) (uid : string) (g : option Goals)
    (e : IMealEntry) (r : MealReq) (e' : IMealEntry)
    (Hrun : meals_handler now uid g (Some e) r = inr e') :
  forall m, In m (meals e) -> mealType m <> rq_mealType r -> In (refresh_meal m) (meals e').
Proof.
  intros m Hm Ht. rewrite (meals_handler_meals _ _ _ _ _ _ Hrun).
  rewrite <- refresh_meal_idem. apply in_map, in_map.
  destruct (findIndex (rq_mealType r) (meals e)) as [i|] eqn:F.
  - destruct (findIndex_Some _ _ _ F) as (x & Hx & Hxt).
    apply replace_at_keeps; [exact Hm|]. rewrite Hx. intros Hxm. injection Hxm as ->.
    contradiction.
  - apply in_or_app. left. exact Hm.
Qed.

(** Submitting a meal of a type the saved day does not hold yet adds its
    foods' calories to the day's total. *)
Theorem meals_handler_new_type_adds_calories (now : Z) (uid : string) (g : option Goals)
    (e0 : IMealEntry) (r : MealReq) (e' : IMealEntry)
    (Hrun : meals_handler now uid g (Some (pre_save e0)) r = inr e')
    (Hnew : ~ In (rq_mealType r) (map mealType (meals e0))) :
  calories (dailyTotals e') ==
  calories (dailyTotals (pre_save e0)) +
  qsum (map (fun f => rq_calories (rq_actualNutrition f)) (rq_foods r)).
Proof.
  destruct (meals_handler_saved _ _ _ _ _ _ Hrun) as [u Hu].
  destruct (compute_dailyTotals_are_sums u) as [Hc _]. rewrite <- Hu in Hc.
  destruct (compute_dailyTotals_are_sums e0) as [Hc0 _].
  rewrite Hc, Hc0. clear Hc Hc0.
  rewrite (meals_handler_meals _ _ _ _ _ _ Hrun). simpl meals.
  rewrite findIndex_None_iff
    by (rewrite map_map; exact Hnew).
  rewrite !map_map, map_app, qsum_app. simpl.
  destruct (calculatedTotals_are_sums (newMeal now r)) as [Hn _].
  simpl in Hn. rewrite Hn.
  replace (map (fun f => calories (actualNutrition f)) (map (food_of_req now) (rq_foods r)))
    with (map (fun f => rq_calories (rq_actualNutrition f)) (rq_foods r))
    by (rewrite map_map; reflexivity).
  rewrite (map_map refresh_meal). simpl. ring.
Qed.

(** A food with an amount below 0.1 makes the whole submission fail
    validation; nothing is saved. *)
Theorem meals_handler_rejects_small_amount (now : Z) (uid : string) (g : option Goals)
    (ex : option IMealEntry) (r : MealReq) (f : FoodReq)
    (Hf : In f (rq_foods r)) (Hsmall : rq_amount f < 1 # 10) :
  meals_handler now uid g ex r = inl ValidationError.
Proof.
  unfold meals_handler.
  assert (Hv : mealReq_valid r = false).
  { unfold mealReq_valid. apply not_true_iff_false. rewrite forallb_forall. intros H.
    specialize (H f Hf). apply andb_true_iff in H as [H _]. apply andb_true_iff in H as [H _].
    apply Qle_bool_iff in H. lra. }
  rewrite Hv. reflexivity.
Qed.

Lemma Z_of_Q_bounds (r a b : Z) :
  inject_Z a < inject_Z r + 1 -> inject_Z r < inject_Z b + 1 -> (a <= r <= b)%Z.
Proof.
  intros H1 H2.
  change 1 with (inject_Z 1) in H1, H2.
  rewrite <- inject_Z_plus, <- Zlt_Qlt in H1, H2. lia.
Qed.

Lemma math_round_compat (x y : Q) : x == y -> math_round x = math_round y.
Proof.
  intros H. unfold math_round.
  apply Z.le_antisymm; apply Qfloor_resp_le; rewrite H; apply Qle_refl.
Qed.

Lemma math_round_shift (x : Q) (n : Z) :
  math_round (x + inject_Z n) = (math_round x + n)%Z.
Proof.
  unfold math_round. set (f := Qfloor (x + (1 # 2))).
  pose proof (Qfloor_le (x + (1 # 2))) as H1.
  pose proof (Qlt_floor (x + (1 # 2))) as H2.
  fold f in H1, H2. rewrite inject_Z_plus in H2.
  apply Z.le_antisymm.
  - pose proof (Qfloor_le (x + inject_Z n + (1 # 2))) as H3.
    pose proof (Qlt_floor (x + inject_Z n + (1 # 2))) as H4.
    assert (H5 : inject_Z (Qfloor (x + inject_Z n + (1 # 2))) < inject_Z (f + n + 1)).
    { rewrite !inject_Z_plus. change (inject_Z 1) with 1 in *. lra. }
    rewrite <- Zlt_Qlt in H5. lia.
  - rewrite <- (Qfloor_Z (f + n)). apply Qfloor_resp_le.
    rewrite inject_Z_plus. lra.
Qed.

(** Goal progress of a positive target: nothing remains exactly when the
    actual intake reaches the target, the percentage is then at least
    100, and it is at most 100 while a non-negative intake stays within
    the target. *)
Theorem calculateGoalProgress_target_reached (a t : Q) (Ht : 0 < t) :
  (remaining (calculateGoalProgress a t) == 0 <-> t <= a) /\
  (t <= a -> (100 <= percentage (calculateGoalProgress a t))%Z) /\
  (0 <= a -> a <= t -> (0 <= percentage (calculateGoalProgress a t) <= 100)%Z).
Proof.
  unfold calculateGoalProgress; simpl.
  assert (Hle : Qle_bool t 0 = false).
  { apply not_true_iff_false. rewrite Qle_bool_iff. lra. }
  rewrite Hle. simpl.
  set (q := a / t).
  assert (Hq1 : t <= a -> 1 <= q).
  { intros H. apply Qle_shift_div_l; [exact Ht|lra]. }
  assert (Hq2 : a <= t -> q <= 1).
  { intros H. apply Qle_shift_div_r; [exact Ht|lra]. }
  assert (Hq0 : 0 <= a -> 0 <= q).
  { intros H. apply Qle_shift_div_l; [exact Ht|lra]. }
  destruct (math_round_bounds (q * 100)) as [Hr1 Hr2].
  split; [|split].
  - destruct (Qlt_le_dec (t - a) 0) as [H|H].
    + rewrite Q.max_l by lra. lra.
    + rewrite Q.max_r by exact H. lra.
  - intros H. specialize (Hq1 H).
    assert (100 <= math_round (q * 100) <= 100 + math_round (q * 100))%Z as [? _];
      [|assumption].
    pose proof (Z_of_Q_bounds (math_round (q * 100)) 100 (100 + math_round (q * 100))) as B.
    apply B; rewrite ?inject_Z_plus; change (inject_Z 100) with 100; lra.
  - intros H0 H1. specialize (Hq2 H1). specialize (Hq0 H0).
    apply Z_of_Q_bounds; change (inject_Z 0) with 0; change (inject_Z 100) with 100; lra.
Qed.

(** The macro ring of a non-negative intake: its percentage lies in
    [0, 100], the two pie slices are non-negative and make up 100, and
    the grams it shows as remaining are the [remaining] the API reports. *)
Theorem MacroRing_slices (c t : Q) (Hc : 0 <= c) :
  let v := MacroRing c t in
  0 <= ring_percentage v <= 100 /\
  0 <= ring_consumed_slice v /\ 0 <= ring_remaining_slice v /\
  ring_consumed_slice v + ring_remaining_slice v == 100 /\
  ring_remaining v == remaining (calculateGoalProgress c t).
Proof.
  unfold MacroRing, calculateGoalProgress; simpl.
  assert (Hp : 0 <= (if negb (Qle_bool t 0) then Qmin (c / t * 100) 100 else 0) <= 100).
  { destruct (Qle_bool t 0) eqn:E; simpl; [lra|].
    assert (Ht : 0 < t).
    { apply Qnot_le_lt. intros H. apply Qle_bool_iff in H. congruence. }
    assert (H0 : 0 <= c / t) by (apply Qle_shift_div_l; [exact Ht|lra]).
    split.
    - apply Q.min_glb; lra.
    - apply Q.le_min_r. }
  destruct Hp as [Hp0 Hp1].
  repeat split; try lra. apply Q.max_comm.
Qed.

(** When the macro targets account for the daily calories exactly
    (4 kcal/g protein and carbohydrates, 9 kcal/g fat), the recomputed
    macro percentages add up to 99, 100 or 101. *)
Theorem user_pre_save_percentages_sum (mtm dcm : bool) (u : IUser)
    (Hmod : (mtm || dcm) = true)
    (Hpos : 0 < dailyCalories (goals u))
    (Hbal : 4 * mtg_protein (macroTargets (goals u))
            + 4 * mtg_carbohydrates (macroTargets (goals u))
            + 9 * mtg_fat (macroTargets (goals u)) == dailyCalories (goals u)) :
  exists pr, macroPercentages (goals (user_pre_save mtm dcm u)) = Some pr /\
    (99 <= mp_protein pr + mp_carbohydrates pr + mp_fat pr <= 101)%Z.
Proof.
  unfold user_pre_save. rewrite Hmod. eexists. split; [reflexivity|]. simpl.
  set (D := dailyCalories (goals u)) in *.
  set (t := macroTargets (goals u)) in *.
  set (x1 := mtg_protein t * 4 / D * 100).
  set (x2 := mtg_carbohydrates t * 4 / D * 100).
  set (x3 := mtg_fat t * 9 / D * 100).
  assert (Hsum : x1 + x2 + x3 == 100).
  { unfold x1, x2, x3.
    setoid_replace (mtg_protein t * 4 / D * 100 + mtg_carbohydrates t * 4 / D * 100
                    + mtg_fat t * 9 / D * 100)
      with ((4 * mtg_protein t + 4 * mtg_carbohydrates t + 9 * mtg_fat t) / D * 100)
      by (field; lra).
    rewrite Hbal. field. lra. }
  destruct (math_round_bounds x1) as [A1 B1].
  destruct (math_round_bounds x2) as [A2 B2].
  destruct (math_round_bounds x3) as [A3 B3].
  apply Z_of_Q_bounds; rewrite !inject_Z_plus; change (inject_Z 99) with 99;
    change (inject_Z 101) with 101; lra.
Qed.

(** The stored BMR of a male profile is that of the same profile marked
    female plus 166 kcal, and a profile marked [other] gets the female
    formula. *)
Theorem generateBMR_gender_offset (y : Z) (p : Profile) :
  generateBMR y (set_gender male p) = (generateBMR y (set_gender female p) + 166)%Z /\
  generateBMR y (set_gender other p) = generateBMR y (set_gender female p).
Proof.
  split; [|reflexivity].
  unfold generateBMR, set_gender; simpl.
  rewrite <- math_round_shift. apply math_round_compat.
  change (inject_Z 166) with 166. ring.
Qed.

(** [UserSchema.virtual('age')] is the year difference, minus one
    before the birthday of the current year. *)
Theorem virtual_age_birthday (now birth : JsDate) :
  (virtual_age now birth = (year now - year birth)%Z <->
   (month birth < month now \/ (month birth = month now /\ day birth <= day now))%Z) /\
  (virtual_age now birth = (year now - year birth)%Z \/
   virtual_age now birth = (year now - year birth - 1)%Z).
Proof.
  unfold virtual_age.
  destruct (month now - month birth <? 0)%Z eqn:E1;
  destruct (month now - month birth =? 0)%Z eqn:E2;
  destruct (day now <? day birth)%Z eqn:E3; simpl;
  rewrite ?Z.ltb_lt, ?Z.ltb_ge, ?Z.eqb_eq, ?Z.eqb_neq in *; lia.
Qed.

Lemma authReducer_consistent (s : AuthState) (a : AuthAction) :
  auth_consistent s -> auth_consistent (authReducer s a).
Proof.
  destruct a; simpl; auto.
  - left; reflexivity.
  - right; split; reflexivity.
Qed.

(** From [AuthProvider]'s initial state, whatever actions are dispatched,
    a state that is not authenticated holds no user and no token. *)
Theorem authReducer_logged_out_empty (acts : list AuthAction) :
  let s := fold_left authReducer acts initialAuthState in
  isAuthenticated s = true \/ (as_user s = None /\ as_token s = None).
Proof.
  change (auth_consistent (fold_left authReducer acts initialAuthState)).
  assert (H0 : auth_consistent initialAuthState) by (right; split; reflexivity).
  revert H0. generalize initialAuthState.
  induction acts as [|a acts IH]; intros s Hs; simpl; [exact Hs|].
  apply IH, authReducer_consistent, Hs.
Qed.

Lemma filteri_keep_all {A} (n k : nat) (l : list A) :
  (n < k)%nat -> filteri_from (fun i _ => negb (Nat.eqb i n)) k l = l.
Proof.
  revert k; induction l as [|x l IH]; intros k Hk; simpl; [reflexivity|].
  replace (Nat.eqb k n) with false by (symmetry; apply Nat.eqb_neq; lia).
  simpl. rewrite IH by lia. reflexivity.
Qed.

Lemma filteri_remove {A} (l1 l2 : list A) (x : A) (k : nat) :
  filteri_from (fun i _ => negb (Nat.eqb i (k + List.length l1))) k (l1 ++ x :: l2) = l1 ++ l2.
Proof.
  revert k; induction l1 as [|y l1 IH]; intros k; simpl.
  - rewrite Nat.add_0_r, Nat.eqb_refl. simpl. apply filteri_keep_all. lia.
  - replace (Nat.eqb k (k + S (List.length l1))) with false by (symmetry; apply Nat.eqb_neq; lia).
    simpl. replace (k + S (List.length l1))%nat with (S k + List.length l1)%nat by lia.
    rewrite IH. reflexivity.
Qed.

Lemma totalNutrition_sums (l : list SelectedFood) :
  lt_calories (totalNutrition l) == qsum (map (logger_contribution dn_calories) l) /\
  lt_protein (totalNutrition l) == qsum (map (logger_contribution dn_protein) l) /\
  lt_carbohydrates (totalNutrition l) == qsum (map (logger_contribution dn_carbohydrates) l) /\
  lt_fat (totalNutrition l) == qsum (map (logger_contribution dn_fat) l).
Proof.
  unfold totalNutrition. repeat split; apply fold_left_additive0; reflexivity.
Qed.

(** Removing the food at an index of the MealLogger list takes exactly
    that food's share out of each running total. *)
Theorem handleRemoveFood_totals (prev : list SelectedFood) (i : nat) (f : SelectedFood)
    (Hf : nth_error prev i = Some f) :
  let after := totalNutrition (handleRemoveFood prev i) in
  let before := totalNutrition prev in
  lt_calories after == lt_calories before - dn_calories (sf_nutrition f) * (sf_amount f / 100) /\
  lt_protein after == lt_protein before - dn_protein (sf_nutrition f) * (sf_amount f / 100) /\
  lt_carbohydrates after ==
    lt_carbohydrates before - dn_carbohydrates (sf_nutrition f) * (sf_amount f / 100) /\
  lt_fat after == lt_fat before - dn_fat (sf_nutrition f) * (sf_amount f / 100).
Proof.
  destruct (nth_error_split prev i Hf) as (l1 & l2 & -> & <-).
  unfold handleRemoveFood.
  pose proof (filteri_remove l1 l2 f 0) as R. simpl in R. rewrite R.
  destruct (totalNutrition_sums (l1 ++ l2)) as (A1 & A2 & A3 & A4).
  destruct (totalNutrition_sums (l1 ++ f :: l2)) as (B1 & B2 & B3 & B4).
  simpl. rewrite A1, A2, A3, A4, B1, B2, B3, B4.
  rewrite !map_app, !qsum_app. simpl. unfold logger_contribution.
  repeat split; ring.
Qed.

(** The food FoodSearch hands to MealLogger already carries the
    nutrition of the chosen amount, and MealLogger scales it by the
    amount once more: unless the amount is 100 g (or the food has no
    calories), the running total does not grow by the food's calories. *)
Theorem logger_scales_twice (prev : list SelectedFood) (id : Z) (foodName : string) (a : Q)
    (Ha : ~ a == 100) (Hc : ~ dn_calories (getFoodDetails id a) == 0) :
  lt_calories (totalNutrition (handleFoodSelect prev (handleAddFood id foodName a))) ==
    lt_calories (totalNutrition prev) + dn_calories (getFoodDetails id a) * (a / 100) /\
  ~ lt_calories (totalNutrition (handleFoodSelect prev (handleAddFood id foodName a))) ==
    lt_calories (totalNutrition prev) + dn_calories (getFoodDetails id a).
Proof.
  unfold handleFoodSelect, totalNutrition. rewrite fold_left_app.
  set (T0 := fold_left logger_step prev (mkLoggerTotals 0 0 0 0)).
  change (fold_left logger_step [handleAddFood id foodName a] T0)
    with (logger_step T0 (handleAddFood id foodName a)).
  change (lt_calories (logger_step T0 (handleAddFood id foodName a)))
    with (lt_calories T0 + dn_calories (getFoodDetails id a) * (a / 100)).
  set (T := lt_calories T0).
  set (c := dn_calories (getFoodDetails id a)) in *.
  split; [reflexivity|].
  intros H.
  assert (H' : c * (a / 100 - 1) == 0).
  { setoid_replace (c * (a / 100 - 1)) with ((T + c * (a / 100)) - (T + c)) by ring.
    rewrite H. ring. }
  apply Qmult_integral in H' as [H'|H']; [contradiction|].
  apply Ha. setoid_replace a with ((a / 100 - 1) * 100 + 100) by field.
  rewrite H'. reflexivity.
Qed.

Lemma mockNutrition_None_frontend (id : Z) :
  mockNutrition id = None -> frontend_mockNutrition id = None.
Proof.
  intros H. destruct id as [|p|p]; try reflexivity;
  repeat (destruct p as [p|p|]; simpl in H; try discriminate H; try reflexivity).
Qed.

(** The frontend's mock [getFoodDetails] returns, for any amount, the
    nutrition the backend's [getMockNutritionData] computes, for the
    foods 1 to 6 and for every id neither table knows. *)
Theorem getFoodDetails_matches_backend (id : Z) (a : Q) (u : string)
    (Hid : (1 <= id <= 6)%Z \/ mockNutrition id = None) :
  let f := getFoodDetails id a in
  let n := sp_nutrition (getMockNutritionData id a u) in
  dn_calories f = sp_calories n /\ dn_protein f = sp_protein n /\
  dn_carbohydrates f = sp_carbohydrates n /\ dn_fat f = sp_fat n /\
  dn_fiber f = sp_fiber n.
Proof.
  destruct Hid as [Hid|Hn].
  - assert (id = 1 \/ id = 2 \/ id = 3 \/ id = 4 \/ id = 5 \/ id = 6)%Z as Hc by lia.
    repeat destruct Hc as [->|Hc]; try subst id; repeat split.
  - unfold getFoodDetails, getMockNutritionData, baseNutrition_of.
    rewrite Hn, (mockNutrition_None_frontend id Hn). repeat split.
Qed.

(** For the five activity levels the schema allows, the stored TDEE is
    the frontend's [calculateTDEE] applied to the stored BMR. *)
Theorem generateTDEE_agrees_calculateTDEE (y : Z) (p : Profile)
    (Hl : In (activityLevel p) activity_levels) :
  generateTDEE y p = calculateTDEE (inject_Z (generateBMR y p)) (activityLevel p).
Proof.
  unfold generateTDEE, calculateTDEE.
  simpl in Hl. repeat destruct Hl as [<-|Hl]; try contradiction; reflexivity.
Qed.



Lemma ascii_lower_idem (c : Ascii.ascii) : ascii_lower (ascii_lower c) = ascii_lower c.
Proof.
  destruct c as [[] [] [] [] [] [] [] []]; reflexivity.
Qed.

Lemma toLowerCase_idem (s : string) : toLowerCase (toLowerCase s) = toLowerCase s.
Proof.
  induction s as [|c s IH]; simpl; [reflexivity|]. rewrite ascii_lower_idem, IH. reflexivity.
Qed.

(** The mock search is case-insensitive: a query and its lower-case
    form find the same foods. *)
Theorem getMockSearchResults_case_insensitive (q : string) (limit : option Z) :
  getMockSearchResults (toLowerCase q) limit = getMockSearchResults q limit.
Proof.
  unfold getMockSearchResults. rewrite toLowerCase_idem. reflexivity.
Qed.

Lemma firstn_In_l {A} (n : nat) (l : list A) (x : A) : In x (firstn n l) -> In x l.
Proof.
  intros H. rewrite <- (firstn_skipn n l). apply in_or_app. left. exact H.
Qed.

(** A successful mock search answers with the query it was given (at
    least two characters), counts its results, returns only catalogue
    foods whose name contains the query regardless of case, and never
    more than a non-negative [limit]. *)
Theorem food_search_handler_ok (q q' : string) (limit : option Z)
    (rs : list SpoonacularSearchResult) (n : nat)
    (Hrun : food_search_handler true true (Some q) limit = SR_Ok q' rs n) :
  q' = q /\ (2 <= String.length q)%nat /\ n = List.length rs /\
  (forall x, In x rs -> In x mockFoods /\
     includes (toLowerCase (sr_name x)) (toLowerCase q) = true) /\
  (forall l, limit = Some l -> (0 <= l)%Z -> (List.length rs <= Z.to_nat l)%nat).
Proof.
  unfold food_search_handler in Hrun. simpl in Hrun.
  destruct (String.eqb q "") eqn:E; [discriminate|].
  destruct (Nat.ltb (String.length q) 2) eqn:L; [discriminate|].
  injection Hrun as <- <- <-. apply Nat.ltb_ge in L.
  split; [reflexivity|]. split; [exact L|]. split; [reflexivity|]. split.
  - intros x Hx. unfold getMockSearchResults, js_slice0 in Hx.
    apply firstn_In_l, filter_In in Hx. exact Hx.
  - intros l -> Hl. unfold getMockSearchResults, js_slice0, js_slice_end.
    rewrite length_firstn.
    destruct (l <? 0)%Z eqn:Z0; [apply Z.ltb_lt in Z0; lia|]. lia.
Qed.

(** A [limit] that does not parse as a number ([parseInt] gives NaN)
    makes every valid search succeed with no results. *)
Theorem food_search_handler_nan_limit (q : string) (Hq : (2 <= String.length q)%nat) :
  food_search_handler true true (Some q) None = SR_Ok q [] 0.
Proof.
  unfold food_search_handler. simpl.
  replace (String.eqb q "") with false by (destruct q; [simpl in Hq; lia|reflexivity]).
  replace (Nat.ltb (String.length q) 2) with false by (symmetry; apply Nat.ltb_ge; exact Hq).
  reflexivity.
Qed.

(** [getNutrient] takes the first nutrient whose name contains the
    requested one: a later, exact match is shadowed. *)
Theorem getNutrient_first_match (pre post : list (string * Q)) (nm n : string) (v : Q)
    (Hpre : forall x, In x pre -> includes (toLowerCase (fst x)) (toLowerCase nm) = false)
    (Hn : includes (toLowerCase n) (toLowerCase nm) = true) :
  getNutrient (pre ++ (n, v) :: post) nm = inject_Z (math_round (v * 100)) / 100.
Proof.
  unfold getNutrient.
  replace (find (fun x => includes (toLowerCase (fst x)) (toLowerCase nm)) (pre ++ (n, v) :: post))
    with (Some (n, v)); [reflexivity|].
  induction pre as [|x pre IH]; simpl.
  - rewrite Hn. reflexivity.
  - rewrite (Hpre x (or_introl eq_refl)). apply IH.
    intros y Hy. apply Hpre. right. exact Hy.
Qed.

Lemma calculateGoalProgress_zero (t : Q) (Ht : 0 <= t) :
  progress_equiv (mkGoalProgress t 0 0 t) (calculateGoalProgress 0 t).
Proof.
  unfold progress_equiv, calculateGoalProgress; simpl.
  split; [reflexivity|]. split; [reflexivity|]. split.
  - destruct (negb (Qle_bool t 0)); [|reflexivity].
    rewrite (math_round_compat _ 0) by (unfold Qdiv; ring). reflexivity.
  - rewrite Q.max_r by lra. lra.
Qed.

(** For a day with no entry yet, the daily summary reports the same
    progress the meal handler stores for a day with nothing eaten, as
    long as the targets are non-negative. *)
Theorem daily_handler_empty_day (d : string) (g : Goals) (gp : GoalProgressSet)
    (Hrun : daily_handler true true (Some d) true None (Some g) = DR_Empty (Some gp))
    (Hc : 0 <= dailyCalories g) (Hp : 0 <= mtg_protein (macroTargets g))
    (Hch : 0 <= mtg_carbohydrates (macroTargets g)) (Hf : 0 <= mtg_fat (macroTargets g)) :
  let gp0 := goalProgress_of zero_nutrition g in
  progress_equiv (gp_calories gp) (gp_calories gp0) /\
  progress_equiv (gp_protein gp) (gp_protein gp0) /\
  progress_equiv (gp_carbohydrates gp) (gp_carbohydrates gp0) /\
  progress_equiv (gp_fat gp) (gp_fat gp0).
Proof.
  unfold daily_handler in Hrun. simpl in Hrun.
  destruct (String.eqb d "") eqn:E; [discriminate|].
  injection Hrun as <-. simpl.
  repeat split; apply calculateGoalProgress_zero; assumption.
Qed.

Lemma find_first {A} (f : A -> bool) (l : list A) (x : A) :
  find f l = Some x -> exists l1 l2, l = l1 ++ x :: l2 /\ f x = true /\
    forall y, In y l1 -> f y = false.
Proof.
  induction l as [|a l IH]; simpl; [discriminate|].
  destruct (f a) eqn:E.
  - intros H. injection H as <-. exists [], l. split; [reflexivity|]. split; [exact E|]. intros y [].
  - intros H. destruct (IH H) as (l1 & l2 & -> & Hx & Hl1).
    exists (a :: l1), l2. split; [reflexivity|]. split; [exact Hx|].
    intros y [<-|Hy]; auto.
Qed.

Lemma save_found_split (email : string) (u' : StoredUser) (l1 l2 : list StoredUser) (x : StoredUser) :
  String.eqb (su_email x) email = true ->
  (forall y, In y l1 -> String.eqb (su_email y) email = false) ->
  save_found email u' (l1 ++ x :: l2) = l1 ++ u' :: l2.
Proof.
  intros Hx Hl1. induction l1 as [|y l1 IH]; simpl.
  - rewrite Hx. reflexivity.
  - rewrite (Hl1 y (or_introl eq_refl)). rewrite IH; [reflexivity|].
    intros z Hz. apply Hl1. right. exact Hz.
Qed.

(** Login answers an unknown email and a wrong password alike with
    INVALID_CREDENTIALS, and a login that does not succeed leaves the
    stored users untouched. *)
Theorem login_handler_invalid_credentials (isEmail : string -> bool)
    (comparePassword : string -> string -> bool) (now : Z) (store : list StoredUser)
    (email password : string) (r : LoginResponse) (store' : list StoredUser)
    (Hrun : login_handler isEmail comparePassword true now store email password = (r, store')) :
  (r = LR_InvalidCredentials <->
   isEmail email = true /\ password <> ""%string /\
   forall u, findUserByEmail store email = Some u -> comparePassword password (su_password u) = false) /\
  match r with LR_Ok _ => True | _ => store' = store end.
Proof.
  unfold login_handler in Hrun. simpl in Hrun.
  destruct (isEmail email) eqn:Em; simpl in Hrun.
  - destruct (String.eqb password "") eqn:Pw; simpl in Hrun.
    + injection Hrun as <- <-. split; [|reflexivity].
      split; [discriminate|]. intros (_ & H & _). apply String.eqb_eq in Pw. contradiction.
    + apply String.eqb_neq in Pw.
      destruct (findUserByEmail store email) as [u|] eqn:F.
      * destruct (comparePassword password (su_password u)) eqn:C; simpl in Hrun;
          injection Hrun as <- <-.
        -- split; [|exact I]. split; [discriminate|].
           intros (_ & _ & H). rewrite (H u eq_refl) in C. discriminate.
        -- split; [|reflexivity]. split; [|reflexivity].
           intros _. split; [reflexivity|]. split; [exact Pw|].
           intros v Hv. injection Hv as <-. exact C.
      * injection Hrun as <- <-. split; [|reflexivity]. split; [|reflexivity].
        intros _. split; [reflexivity|]. split; [exact Pw|]. discriminate.
  - injection Hrun as <- <-. split; [|reflexivity].
    split; [discriminate|]. intros (H & _). discriminate.
Qed.

(** A successful login returns the first stored user with that email,
    whose password matched, with [lastLoginAt] set to now; the store
    keeps its size and a later lookup of the email finds the updated
    user. *)
Theorem login_handler_success (isEmail : string -> bool)
    (comparePassword : string -> string -> bool) (now : Z) (store : list StoredUser)
    (email password : string) (u : StoredUser) (store' : list StoredUser)
    (Hrun : login_handler isEmail comparePassword true now store email password = (LR_Ok u, store')) :
  exists u0, findUserByEmail store email = Some u0 /\
    comparePassword password (su_password u0) = true /\
    u = set_lastLoginAt now u0 /\ su_lastLoginAt u = now /\
    List.length store' = List.length store /\
    findUserByEmail store' email = Some u.
Proof.
  unfold login_handler in Hrun. simpl in Hrun.
  destruct (negb (isEmail email) || String.eqb password ""); [discriminate|].
  destruct (findUserByEmail store email) as [u0|] eqn:F; [|discriminate].
  destruct (comparePassword password (su_password u0)) eqn:C; simpl in Hrun; [|discriminate].
  injection Hrun as <- <-.
  exists u0. split; [reflexivity|]. split; [exact C|]. split; [reflexivity|].
  split; [reflexivity|].
  destruct (find_first _ _ _ F) as (l1 & l2 & -> & Hx & Hl1).
  rewrite (save_found_split _ _ _ _ _ Hx Hl1).
  split; [rewrite !length_app; reflexivity|].
  unfold findUserByEmail. clear F.
  induction l1 as [|y l1 IH]; simpl.
  - rewrite Hx. reflexivity.
  - rewrite (Hl1 y (or_introl eq_refl)). apply IH.
    intros z Hz. apply Hl1. right. exact Hz.
Qed.

(** * Witnesses of the further properties *)

Lemma meals_handler_keeps_other_meals_witness :
  exists e',
    meals_handler 1 "u" (Some goals0) (Some day300) (lunch_req 200) = inr e' /\
    (forall m, In m (meals day300) -> mealType m <> lunch -> In (refresh_meal m) (meals e')).
Proof.
  eexists. split; [reflexivity|].
  apply (meals_handler_keeps_other_meals 1 "u" (Some goals0) day300 (lunch_req 200)).
  reflexivity.
Defined.

Lemma meals_handler_new_type_adds_calories_witness :
  let e0 := mkMealEntry "u" 0 [newMeal 0 (breakfast_req 300)] zero_nutrition
              (goalProgress_of zero_nutrition goals0) in
  exists e',
    meals_handler 1 "u" (Some goals0) (Some (pre_save e0)) (lunch_req 200) = inr e' /\
    ~ In lunch (map mealType (meals e0)) /\
    calories (dailyTotals e') ==
      calories (dailyTotals (pre_save e0)) +
      qsum (map (fun f => rq_calories (rq_actualNutrition f)) (rq_foods (lunch_req 200))).
Proof.
  intros e0. eexists. split; [reflexivity|].
  assert (Hn : ~ In lunch (map mealType (meals e0))).
  { simpl. intros [H|[]]. discriminate H. }
  split; [exact Hn|].
  apply (meals_handler_new_type_adds_calories 1 "u" (Some goals0) e0 (lunch_req 200));
    [reflexivity|exact Hn].
Defined.

Lemma meals_handler_rejects_small_amount_witness :
  let r := mkMealReq 0 snack None [oatmeal_req 100; pinch_req] in
  In pinch_req (rq_foods r) /\ rq_amount pinch_req < 1 # 10 /\
  meals_handler 1 "u" (Some goals0) None r = inl ValidationError.
Proof.
  intros r. split; [right; left; reflexivity|]. split; [reflexivity|].
  apply (meals_handler_rejects_small_amount 1 "u" (Some goals0) None r pinch_req);
    [right; left; reflexivity|reflexivity].
Defined.

Lemma calculateGoalProgress_target_reached_witness :
  0 < 2000 /\
  (remaining (calculateGoalProgress 1995 2000) == 0 <-> 2000 <= 1995) /\
  (2000 <= 1995 -> (100 <= percentage (calculateGoalProgress 1995 2000))%Z) /\
  (0 <= 1995 -> 1995 <= 2000 -> (0 <= percentage (calculateGoalProgress 1995 2000) <= 100)%Z).
Proof.
  split; [reflexivity|]. apply calculateGoalProgress_target_reached. reflexivity.
Defined.

Lemma MacroRing_slices_witness :
  0 <= 120 /\
  (let v := MacroRing 120 150 in
   0 <= ring_percentage v <= 100 /\
   0 <= ring_consumed_slice v /\ 0 <= ring_remaining_slice v /\
   ring_consumed_slice v + ring_remaining_slice v == 100 /\
   ring_remaining v == remaining (calculateGoalProgress 120 150)).
Proof.
  split; [vm_compute; discriminate|]. apply MacroRing_slices. vm_compute; discriminate.
Defined.

Lemma user_pre_save_percentages_sum_witness :
  (true || false) = true /\ 0 < dailyCalories (goals balanced_user) /\
  4 * mtg_protein (macroTargets (goals balanced_user))
  + 4 * mtg_carbohydrates (macroTargets (goals balanced_user))
  + 9 * mtg_fat (macroTargets (goals balanced_user)) == dailyCalories (goals balanced_user) /\
  (exists pr, macroPercentages (goals (user_pre_save true false balanced_user)) = Some pr /\
    (99 <= mp_protein pr + mp_carbohydrates pr + mp_fat pr <= 101)%Z) /\
  macroPercentages (goals (user_pre_save true false balanced_user)) =
    Some (mkMacroPercentages 24 24 53).
Proof.
  split; [reflexivity|]. split; [reflexivity|]. split; [reflexivity|]. split.
  - apply user_pre_save_percentages_sum; reflexivity.
  - vm_compute. reflexivity.
Defined.

Lemma handleRemoveFood_totals_witness :
  let prev := [handleAddFood 1 "Chicken Breast" 150; handleAddFood 3 "Broccoli" 100] in
  nth_error prev 0 = Some (handleAddFood 1 "Chicken Breast" 150) /\
  (let f := handleAddFood 1 "Chicken Breast" 150 in
   let after := totalNutrition (handleRemoveFood prev 0) in
   let before := totalNutrition prev in
   lt_calories after == lt_calories before - dn_calories (sf_nutrition f) * (sf_amount f / 100) /\
   lt_protein after == lt_protein before - dn_protein (sf_nutrition f) * (sf_amount f / 100) /\
   lt_carbohydrates after ==
     lt_carbohydrates before - dn_carbohydrates (sf_nutrition f) * (sf_amount f / 100) /\
   lt_fat after == lt_fat before - dn_fat (sf_nutrition f) * (sf_amount f / 100)).
Proof.
  intros prev. split; [reflexivity|]. apply handleRemoveFood_totals. reflexivity.
Defined.

Lemma logger_scales_twice_witness :
  ~ 150 == 100 /\ ~ dn_calories (getFoodDetails 1 150) == 0 /\
  (lt_calories (totalNutrition (handleFoodSelect [] (handleAddFood 1 "Chicken Breast" 150))) ==
     lt_calories (totalNutrition []) + dn_calories (getFoodDetails 1 150) * (150 / 100) /\
   ~ lt_calories (totalNutrition (handleFoodSelect [] (handleAddFood 1 "Chicken Breast" 150))) ==
     lt_calories (totalNutrition []) + dn_calories (getFoodDetails 1 150)) /\
  lt_calories (totalNutrition (handleFoodSelect [] (handleAddFood 1 "Chicken Breast" 150))) == 372.
Proof.
  assert (Ha : ~ 150 == 100) by (vm_compute; discriminate).
  assert (Hc : ~ dn_calories (getFoodDetails 1 150) == 0) by (vm_compute; discriminate).
  split; [exact Ha|]. split; [exact Hc|]. split.
  - apply logger_scales_twice; assumption.
  - vm_compute. reflexivity.
Defined.

Lemma getFoodDetails_matches_backend_witness :
  ((1 <= 42 <= 6)%Z \/ mockNutrition 42 = None) /\
  (let f := getFoodDetails 42 150 in
   let n := sp_nutrition (getMockNutritionData 42 150 "grams") in
   dn_calories f = sp_calories n /\ dn_protein f = sp_protein n /\
   dn_carbohydrates f = sp_carbohydrates n /\ dn_fat f = sp_fat n /\
   dn_fiber f = sp_fiber n).
Proof.
  split; [right; reflexivity|]. apply getFoodDetails_matches_backend. right; reflexivity.
Defined.

Lemma generateTDEE_agrees_calculateTDEE_witness :
  In (activityLevel scenario_profile) activity_levels /\
  generateTDEE 2024 scenario_profile =
    calculateTDEE (inject_Z (generateBMR 2024 scenario_profile)) (activityLevel scenario_profile).
Proof.
  assert (Hl : In (activityLevel scenario_profile) activity_levels)
    by (simpl; right; right; left; reflexivity).
  split; [exact Hl|]. apply generateTDEE_agrees_calculateTDEE, Hl.
Defined.

Lemma food_search_handler_ok_witness :
  exists q' rs n,
    food_search_handler true true (Some "RICE"%string) (Some 20%Z) = SR_Ok q' rs n /\
    (q' = "RICE"%string /\ (2 <= String.length "RICE")%nat /\ n = List.length rs /\
     (forall x, In x rs -> In x mockFoods /\
        includes (toLowerCase (sr_name x)) (toLowerCase "RICE") = true) /\
     (forall l, Some 20%Z = Some l -> (0 <= l)%Z -> (List.length rs <= Z.to_nat l)%nat)) /\
    rs = [mkSearchResult 2 "Brown Rice" "brown-rice.jpg"].
Proof.
  do 3 eexists. split; [reflexivity|]. split.
  - apply food_search_handler_ok. reflexivity.
  - reflexivity.
Defined.

Lemma food_search_handler_nan_limit_witness :
  (2 <= String.length "rice")%nat /\
  food_search_handler true true (Some "rice"%string) None = SR_Ok "rice" [] 0.
Proof.
  assert (Hq : (2 <= String.length "rice")%nat) by (simpl; lia).
  split; [exact Hq|]. apply food_search_handler_nan_limit, Hq.
Defined.

Lemma getNutrient_first_match_witness :
  includes (toLowerCase "Saturated Fat") (toLowerCase "Fat") = true /\
  getNutrient [("Saturated Fat", 12 # 10); ("Fat", 10)]%string "Fat" =
    inject_Z (math_round ((12 # 10) * 100)) / 100.
Proof.
  split; [reflexivity|].
  apply (getNutrient_first_match [] [("Fat", 10)]%string "Fat" "Saturated Fat" (12 # 10));
    [intros x []|reflexivity].
Defined.

Lemma daily_handler_empty_day_witness :
  exists gp,
    daily_handler true true (Some "2024-01-15"%string) true None (Some goals0) = DR_Empty (Some gp) /\
    (let gp0 := goalProgress_of zero_nutrition goals0 in
     progress_equiv (gp_calories gp) (gp_calories gp0) /\
     progress_equiv (gp_protein gp) (gp_protein gp0) /\
     progress_equiv (gp_carbohydrates gp) (gp_carbohydrates gp0) /\
     progress_equiv (gp_fat gp) (gp_fat gp0)).
Proof.
  eexists. split; [reflexivity|].
  apply (daily_handler_empty_day "2024-01-15" goals0); [reflexivity|..];
    vm_compute; discriminate.
Defined.

Lemma login_handler_invalid_credentials_witness :
  exists r store',
    login_handler simple_isEmail String.eqb true 5 one_user_store "ana@example.com" "guess"
      = (r, store') /\
    ((r = LR_InvalidCredentials <->
      simple_isEmail "ana@example.com" = true /\ "guess"%string <> ""%string /\
      forall u, findUserByEmail one_user_store "ana@example.com" = Some u ->
        String.eqb "guess" (su_password u) = false) /\
     match r with LR_Ok _ => True | _ => store' = one_user_store end) /\
    r = LR_InvalidCredentials.
Proof.
  exists LR_InvalidCredentials, one_user_store. split; [reflexivity|]. split.
  - apply (login_handler_invalid_credentials simple_isEmail String.eqb 5 one_user_store
             "ana@example.com" "guess" LR_InvalidCredentials one_user_store). reflexivity.
  - reflexivity.
Defined.

Lemma login_handler_success_witness :
  exists u store',
    login_handler simple_isEmail String.eqb true 5 one_user_store "ana@example.com" "secret"
      = (LR_Ok u, store') /\
    exists u0, findUserByEmail one_user_store "ana@example.com" = Some u0 /\
      String.eqb "secret" (su_password u0) = true /\
      u = set_lastLoginAt 5 u0 /\ su_lastLoginAt u = 5%Z /\
      List.length store' = List.length one_user_store /\
      findUserByEmail store' "ana@example.com" = Some u.
Proof.
  do 2 eexists. split; [reflexivity|].
  apply (login_handler_success simple_isEmail String.eqb 5 one_user_store
           "ana@example.com" "secret"). reflexivity.
Defined.
